(** * ddcutil: I2C strategy dispatcher and tuned sleep

    A shallow embedding of
    - [i2c_strategy_dispatcher.c]: the process-wide I2C IO strategy and the
      two dispatching entry points [invoke_i2c_writer], [invoke_i2c_reader];
    - [base/tuned_sleep.c]: [tuned_sleep_with_trace], [check_deferred_sleep]
      and the deferred-sleep switch;
    - [ddc/ddc_display_ref_reports.c]: [get_firmware_version_string_t],
      [get_controller_mfg_string_t], [ddc_report_display_by_dref] and
      [ddc_report_displays].

    Conventions.
    - A C [int] is a [Z] in [INT_MIN .. INT_MAX]; a [uint64_t] is a [Z] in
      [0 .. 2^64 - 1] with its wrap-around written out ([to_uint64]).
    - A C [double] is an IEEE 754 binary64 value, [spec_float] at precision
      53 and [emax] 1024, with round-to-nearest-even multiplication.
    - [assert] is compiled in (no [NDEBUG]): a failing assertion ends the
      call.  Signed overflow, an out-of-range conversion of a [double] to
      [int] and a dereference of a null or dangling pointer are undefined
      behaviour and end the call as [Undefined_Behavior].
    - The clock is an input: each entry point takes the value that its call
      of [cur_realtime_nanosec()] returns.
    - Sleeping and event statistics are effects on logs kept in [World]. *)

From Stdlib Require Import ZArith Lia Bool List.
From Stdlib Require Import Floats.SpecFloat.
From stdpp Require Import base option strings pretty gmap.

Local Open Scope Z_scope.

(** ** Outcomes of a call *)

(** The assertions of the two source files. *)
Inductive Assertion : Type :=
  | Assert_dh                       (* assert(dh) *)
  | Assert_special_sleep_time       (* tuned_sleep.c, lines 109-110 *)
  | Assert_io_mode_usb              (* assert(io_mode == DDCA_IO_USB) *)
  | Assert_rc_nonpositive.          (* assert (rc <= 0) *)

Inductive Abort : Type :=
  | Assertion_Failed (a : Assertion)
  | Program_Logic_Error
  | Undefined_Behavior.

Inductive Outcome (A : Type) : Type :=
  | Returns (a : A)
  | Aborts (f : Abort).

Arguments Returns {A} a.
Arguments Aborts {A} f.

#[global] Instance Outcome_ret : MRet Outcome := fun _ a => Returns a.

#[global] Instance Outcome_bind : MBind Outcome := fun _ _ k m =>
  match m with
  | Returns a => k a
  | Aborts f => Aborts f
  end.

Definition c_assert (a : Assertion) (cond : bool) : Outcome unit :=
  if cond then Returns tt else Aborts (Assertion_Failed a).

(** Reading through a pointer: [None] is a null or dangling pointer. *)
Definition deref {A : Type} (o : option A) : Outcome A :=
  match o with
  | Some a => Returns a
  | None => Aborts Undefined_Behavior
  end.

(** ** Machine integers *)

Definition INT_MIN : Z := - 2 ^ 31.
Definition INT_MAX : Z := 2 ^ 31 - 1.

Definition in_int (z : Z) : bool := (INT_MIN <=? z) && (z <=? INT_MAX).

(** Arithmetic modulo 2^64, the conversion of any integer to [uint64_t]. *)
Definition to_uint64 (z : Z) : Z := z mod 2 ^ 64.

(** Conversion of an out-of-range value to [int] is implementation-defined;
    gcc and clang reduce modulo 2^32 into the range of [int]. *)
Definition to_int (z : Z) : Z := (z + 2 ^ 31) mod 2 ^ 32 - 2 ^ 31.

(** [int * int]: overflow is undefined. *)
Definition int_mul (a b : Z) : Outcome Z :=
  if in_int (a * b) then Returns (a * b) else Aborts Undefined_Behavior.

(** ** Doubles *)

Definition double : Type := spec_float.

Definition double_mul (x y : double) : double := SFmul 53 1024 x y.

(** [(double) n] for an [int] n: exact, every [int] fits in 53 bits. *)
Definition double_of_int (n : Z) : double := binary_normalize 53 1024 n 0 false.

(** [(int) x]: the fractional part is discarded (truncation toward zero);
    undefined when the integral part does not fit an [int], and for NaN and
    the infinities. *)
Definition double_to_int (x : double) : Outcome Z :=
  match x with
  | S754_zero _ => Returns 0
  | S754_finite s m e =>
      let v := cond_Zopp s (Z.shiftl (Z.pos m) e) in
      if in_int v then Returns v else Aborts Undefined_Behavior
  | S754_infinity _ | S754_nan => Aborts Undefined_Behavior
  end.

(** ** Types shared with the rest of ddcutil *)

(** [DDCA_IO_Mode] of public/ddcutil_types.h, with the three members that
    ddc_display_ref_reports.c switches over. *)
Inductive DDCA_IO_Mode : Type := DDCA_IO_I2C | DDCA_IO_ADL | DDCA_IO_USB.

(** [Sleep_Event_Type] of base/execution_stats.h: the members that the
    switch of [tuned_sleep_with_trace] names. *)
Inductive Sleep_Event_Type : Type :=
  | SE_WRITE_TO_READ
  | SE_POST_WRITE
  | SE_POST_READ
  | SE_POST_SAVE_SETTINGS
  | SE_DDC_NULL
  | SE_PRE_MULTI_PART_READ
  | SE_MULTI_PART_WRITE_TO_READ
  | SE_AFTER_EACH_CAP_TABLE_SEGMENT
  | SE_POST_CAP_TABLE_COMMAND
  | SE_SPECIAL.

#[global] Instance DDCA_IO_Mode_eq_dec : EqDecision DDCA_IO_Mode.
Proof. solve_decision. Defined.

#[global] Instance Sleep_Event_Type_eq_dec : EqDecision Sleep_Event_Type.
Proof. solve_decision. Defined.

(** A display reference: [io_mode] stands for [io_path.io_mode];
    [next_i2c_io_after] is a [uint64_t] count of nanoseconds. *)
Record Display_Ref : Type := {
  io_mode : DDCA_IO_Mode;
  next_i2c_io_after : Z
}.

(** A display handle holds a pointer to its display reference: an address
    in the store [display_refs] of the [World]. *)
Record Display_Handle : Type := {
  dref : nat
}.

(** Modelled from the spec: base/per_thread_data.h and
    base/thread_sleep_data.h are not among the sources.  These are the
    fields of [Per_Thread_Data] that tuned_sleep.c reads:
    [tsd_get_thread_sleep_data()] yields the record of the calling thread,
    [tsd_get_sleep_multiplier_factor()] its [sleep_multiplier_factor] and
    [tsd_get_sleep_multiplier_ct()] its [sleep_multiplier_ct]. *)
Record Per_Thread_Data : Type := {
  dynamic_sleep_enabled : bool;
  sleep_multiplier_factor : double;
  sleep_multiplier_ct : Z;
  cur_sleep_adjustment_factor : double
}.

(** Everything tuned_sleep.c reads or writes: its static flag, the display
    references reachable from handles, the calling thread's sleep data, and
    the two effect logs ([record_sleep_event], [sleep_millis_with_trace]). *)
Record World : Type := {
  deferred_sleep_enabled : bool;
  display_refs : gmap nat Display_Ref;
  tsd : Per_Thread_Data;
  sleep_events : list Sleep_Event_Type;
  slept_millis : list Z
}.

(** The initial value of the static [deferred_sleep_enabled]. *)
Definition deferred_sleep_enabled_initially : bool := false.

(** ** Constants of base/parms.h *)

(** base/parms.h is not among the sources: the values below are those of
    the base delay table of the spec, section 4.2, in milliseconds. *)

(** Modelled from the spec: write-to-read turnaround and multi-part
    write-to-read, 50. *)
Definition DDC_TIMEOUT_MILLIS_DEFAULT : Z := 50.

(** Modelled from the spec: post normal write and post read, 50. *)
Definition DDC_TIMEOUT_MILLIS_POST_NORMAL_COMMAND : Z := 50.

(** Modelled from the spec: post save-settings, 200. *)
Definition DDC_TIMEOUT_MILLIS_POST_SAVE_SETTINGS : Z := 200.

(** Modelled from the spec: between capability-table fragments, 50. *)
Definition DDC_TIMEOUT_MILLIS_BETWEEN_CAP_TABLE_FRAGMENTS : Z := 50.

(** Modelled from the spec: post capability-table command, 50. *)
Definition DDC_TIMEOUT_MILLIS_POST_CAP_TABLE_COMMAND : Z := 50.

(** Modelled from the spec: the macro [PROGRAM_LOGIC_ERROR] of base/core.h,
    which is not among the sources, is a fatal programming-logic error: it
    ends the call. *)
Definition PROGRAM_LOGIC_ERROR {A : Type} : Outcome A := Aborts Program_Logic_Error.

(** ** I2C IO strategy ids *)

Inductive I2C_IO_Strategy_Id : Type := I2C_IO_STRATEGY_IOCTL.

#[global] Instance I2C_IO_Strategy_Id_eq_dec : EqDecision I2C_IO_Strategy_Id.
Proof. solve_decision. Defined.

Definition i2c_io_strategy_name (id : I2C_IO_Strategy_Id) : option string :=
  match id with
  | I2C_IO_STRATEGY_IOCTL => Some "I2C_IO_STRATEGY_IOCTL"%string
  end.

Definition Status_Errno_DDC : Type := Z.

Section Ddcutil.

(** *** What the two files take from elsewhere *)

(** The state of the bus: devices, kernel driver, open descriptors. *)
Variable Bus : Type.

(** Function template for I2C write function:
    fd, slave address, byte count, bytes to write. *)
Definition I2C_Writer : Type :=
  Z -> Byte.byte -> Z -> list Byte.byte -> Bus -> Status_Errno_DDC * Bus.

(** Function template for I2C read function: fd, slave address,
    read_bytewise, byte count, and the caller's buffer, which comes back
    with the bytes read. *)
Definition I2C_Reader : Type :=
  Z -> Byte.byte -> bool -> Z -> list Byte.byte -> Bus ->
  Status_Errno_DDC * list Byte.byte * Bus.

(** i2c_execute.h declares the ioctl transport; i2c_execute.c, which
    defines it, is not among the sources.  Any pair of functions will do. *)
Variable i2c_ioctl_writer : I2C_Writer.
Variable i2c_ioctl_reader : I2C_Reader.

(** Of base/parms.h too; the spec's table gives no number for it (the
    null-response backoff increment), so any value will do. *)
Variable DDC_TIMEOUT_MILLIS_NULL_RESPONSE_INCREMENT : Z.

(** Modelled from the spec: base/dynamic_sleep.c is not among the sources;
    [dsa_update_adjustment_factor(dh, spec_sleep_time_millis)] refreshes the
    calling thread's sleep data from the display's recent history.  Any
    such function will do. *)
Variable dsa_update_adjustment_factor :
  Display_Handle -> Z -> Per_Thread_Data -> Per_Thread_Data.

(** *** i2c_strategy_dispatcher.c *)

(** Describes one I2C IO strategy *)
Record I2C_IO_Strategy : Type := {
  strategy_id : I2C_IO_Strategy_Id;
  i2c_writer : I2C_Writer;
  i2c_reader : I2C_Reader;
  i2c_writer_name : string;
  i2c_reader_name : string
}.

Definition i2c_ioctl_io_strategy : I2C_IO_Strategy := {|
  strategy_id := I2C_IO_STRATEGY_IOCTL;
  i2c_writer := i2c_ioctl_writer;
  i2c_reader := i2c_ioctl_reader;
  i2c_writer_name := "ioctl_writer";
  i2c_reader_name := "ioctl_reader"
|}.

(** The static pointer [i2c_io_strategy] is modelled by the descriptor it
    designates: every function below takes that descriptor as [cur]. *)
Definition i2c_io_strategy_initially : I2C_IO_Strategy := i2c_ioctl_io_strategy.

(** Returns the old strategy id and the descriptor now designated. *)
Definition i2c_set_io_strategy (id : I2C_IO_Strategy_Id) (cur : I2C_IO_Strategy)
  : I2C_IO_Strategy_Id * I2C_IO_Strategy :=
  let old := strategy_id cur in
  let cur' :=
    match id with
    | I2C_IO_STRATEGY_IOCTL => i2c_ioctl_io_strategy
    end in
  (old, cur').

Definition i2c_get_io_strategy (cur : I2C_IO_Strategy) : I2C_IO_Strategy_Id :=
  strategy_id cur.

Definition invoke_i2c_writer (cur : I2C_IO_Strategy)
    (fd : Z) (slave_address : Byte.byte) (bytect : Z)
    (bytes_to_write : list Byte.byte) (bus : Bus)
  : Outcome (Status_Errno_DDC * Bus) :=
  let '(rc, bus') := i2c_writer cur fd slave_address bytect bytes_to_write bus in
  c_assert Assert_rc_nonpositive (rc <=? 0);;
  mret (rc, bus').

Definition invoke_i2c_reader (cur : I2C_IO_Strategy)
    (fd : Z) (slave_address : Byte.byte) (read_bytewise : bool) (bytect : Z)
    (readbuf : list Byte.byte) (bus : Bus)
  : Outcome (Status_Errno_DDC * list Byte.byte * Bus) :=
  let '(rc, readbuf', bus') :=
    i2c_reader cur fd slave_address read_bytewise bytect readbuf bus in
  c_assert Assert_rc_nonpositive (rc <=? 0);;
  mret (rc, readbuf', bus').

(** *** tuned_sleep.c: deferred sleep switch *)

Definition enable_deferred_sleep (onoff : bool) (w : World) : bool * World :=
  let old := deferred_sleep_enabled w in
  (old, {| deferred_sleep_enabled := onoff;
           display_refs := display_refs w;
           tsd := tsd w;
           sleep_events := sleep_events w;
           slept_millis := slept_millis w |}).

Definition is_deferred_sleep_enabled (w : World) : bool :=
  deferred_sleep_enabled w.

(** *** Effects of the helpers that tuned_sleep.c calls *)

(** Modelled from the spec: base/execution_stats.c is not among the
    sources; [record_sleep_event(event_type)] records the occurrence of
    the event type, here at the end of [sleep_events]. *)
Definition record_sleep_event (event_type : Sleep_Event_Type) (w : World) : World :=
  {| deferred_sleep_enabled := deferred_sleep_enabled w;
     display_refs := display_refs w;
     tsd := tsd w;
     sleep_events := sleep_events w ++ [event_type];
     slept_millis := slept_millis w |}.

(** Modelled from the spec: base/sleep.c is not among the sources;
    [sleep_millis_with_trace(millis, ...)] blocks the calling thread for
    [millis] milliseconds.  Each such sleep is appended to [slept_millis]. *)
Definition sleep_millis_with_trace (millis : Z) (w : World) : World :=
  {| deferred_sleep_enabled := deferred_sleep_enabled w;
     display_refs := display_refs w;
     tsd := tsd w;
     sleep_events := sleep_events w;
     slept_millis := slept_millis w ++ [millis] |}.

Definition set_tsd (t : Per_Thread_Data) (w : World) : World :=
  {| deferred_sleep_enabled := deferred_sleep_enabled w;
     display_refs := display_refs w;
     tsd := t;
     sleep_events := sleep_events w;
     slept_millis := slept_millis w |}.

(** [dh->dref->next_i2c_io_after = v], for a handle whose [dref] is [p]
    and designates [d]. *)
Definition store_next_i2c_io_after (p : nat) (d : Display_Ref) (v : Z) (w : World)
  : World :=
  {| deferred_sleep_enabled := deferred_sleep_enabled w;
     display_refs :=
       <[p := {| io_mode := io_mode d; next_i2c_io_after := v |}]> (display_refs w);
     tsd := tsd w;
     sleep_events := sleep_events w;
     slept_millis := slept_millis w |}.

(** *** tuned_sleep.c: perform sleep *)

(** The precondition asserted on entry (lines 109-110). *)
Definition special_sleep_time_ok (event_type : Sleep_Event_Type)
    (special_sleep_time_millis : Z) : bool :=
  (negb (bool_decide (event_type = SE_SPECIAL)) && (special_sleep_time_millis =? 0))
  || (bool_decide (event_type = SE_SPECIAL) && (0 <? special_sleep_time_millis)).

(** The switch over the event type for [DDCA_IO_I2C]: the pair
    [(spec_sleep_time_millis, deferrable_sleep)] it leaves. *)
Definition i2c_sleep_event (enabled : bool) (event_type : Sleep_Event_Type)
    (special_sleep_time_millis : Z) : Z * bool :=
  match event_type with
  | SE_WRITE_TO_READ => (DDC_TIMEOUT_MILLIS_DEFAULT, false)
  | SE_POST_WRITE => (DDC_TIMEOUT_MILLIS_POST_NORMAL_COMMAND, enabled)
  | SE_POST_READ => (DDC_TIMEOUT_MILLIS_POST_NORMAL_COMMAND, enabled)
  | SE_POST_SAVE_SETTINGS => (DDC_TIMEOUT_MILLIS_POST_SAVE_SETTINGS, enabled)
  | SE_MULTI_PART_WRITE_TO_READ => (DDC_TIMEOUT_MILLIS_DEFAULT, false)
  | SE_AFTER_EACH_CAP_TABLE_SEGMENT =>
      (DDC_TIMEOUT_MILLIS_BETWEEN_CAP_TABLE_FRAGMENTS, false)
  | SE_POST_CAP_TABLE_COMMAND => (DDC_TIMEOUT_MILLIS_POST_CAP_TABLE_COMMAND, enabled)
  | SE_DDC_NULL => (DDC_TIMEOUT_MILLIS_NULL_RESPONSE_INCREMENT, false)
  | SE_PRE_MULTI_PART_READ => (200, false)
  | SE_SPECIAL => (special_sleep_time_millis, false)
  end.

(** Lines 117-191: the switch for [DDCA_IO_I2C], and the branch for the
    other IO modes. *)
Definition sleep_time_for_io_mode (mode : DDCA_IO_Mode) (enabled : bool)
    (event_type : Sleep_Event_Type) (special_sleep_time_millis : Z)
  : Outcome (Z * bool) :=
  if bool_decide (mode = DDCA_IO_I2C) then
    mret (i2c_sleep_event enabled event_type special_sleep_time_millis)
  else
    c_assert Assert_io_mode_usb (bool_decide (mode = DDCA_IO_USB));;
    PROGRAM_LOGIC_ERROR.

(** Lines 210-235: [adjusted_sleep_time_millis], and the thread's sleep
    data after the call of the estimator. *)
Definition adjusted_sleep_time (h : Display_Handle) (spec_sleep_time_millis : Z)
    (t : Per_Thread_Data) : Outcome (Z * Per_Thread_Data) :=
  let factor := sleep_multiplier_factor t in
  if dynamic_sleep_enabled t then
    let t' := dsa_update_adjustment_factor h spec_sleep_time_millis t in
    adjusted ← double_to_int
      (double_mul (double_mul (cur_sleep_adjustment_factor t') factor)
                  (double_of_int spec_sleep_time_millis));
    mret (adjusted, t')
  else
    let sleep_multiplier_ct := sleep_multiplier_ct t in
    adjusted ← double_to_int
      (double_mul (double_mul (double_of_int sleep_multiplier_ct) factor)
                  (double_of_int spec_sleep_time_millis));
    mret (adjusted, t).

(** [cur_realtime_nanosec() + (1000 * 1000) * (int) adjusted_sleep_time_millis]:
    the product is an [int] product, the sum a [uint64_t] sum. *)
Definition new_deferred_time (now adjusted_sleep_time_millis : Z) : Outcome Z :=
  nanos ← int_mul (1000 * 1000) adjusted_sleep_time_millis;
  mret (to_uint64 (now + nanos)).

(** Lines 246-256. *)
Definition defer_or_sleep (now : Z) (p : nat) (d : Display_Ref)
    (deferrable_sleep : bool) (adjusted_sleep_time_millis : Z) (w : World)
  : Outcome World :=
  if deferrable_sleep then
    candidate ← new_deferred_time now adjusted_sleep_time_millis;
    if next_i2c_io_after d <? candidate
    then mret (store_next_i2c_io_after p d candidate w)
    else mret w
  else
    mret (sleep_millis_with_trace adjusted_sleep_time_millis w).

Definition tuned_sleep_with_trace (now : Z) (dh : option Display_Handle)
    (event_type : Sleep_Event_Type) (special_sleep_time_millis : Z) (w : World)
  : Outcome World :=
  c_assert Assert_dh (bool_decide (is_Some dh));;
  c_assert Assert_special_sleep_time
    (special_sleep_time_ok event_type special_sleep_time_millis);;
  h ← deref dh;
  d ← deref (display_refs w !! dref h);
  '(spec_sleep_time_millis, deferrable_sleep) ←
    sleep_time_for_io_mode (io_mode d) (deferred_sleep_enabled w)
                           event_type special_sleep_time_millis;
  '(adjusted_sleep_time_millis, t') ←
    adjusted_sleep_time h spec_sleep_time_millis (tsd w);
  let w1 := record_sleep_event event_type (set_tsd t' w) in
  defer_or_sleep now (dref h) d deferrable_sleep adjusted_sleep_time_millis w1.

(** [check_deferred_sleep]: [now] is [curtime]. *)
Definition check_deferred_sleep (now : Z) (dh : option Display_Handle) (w : World)
  : Outcome World :=
  h ← deref dh;
  d ← deref (display_refs w !! dref h);
  if now <? next_i2c_io_after d then
    let sleep_time := to_int (to_uint64 (next_i2c_io_after d - now) / (1000 * 1000)) in
    mret (sleep_millis_with_trace sleep_time w)
  else
    mret w.

(** *** Derived notions *)

(** The event types whose case in the switch reads the deferred-sleep flag
    into [deferrable_sleep]. *)
Definition deferrable_event (event_type : Sleep_Event_Type) : bool :=
  snd (i2c_sleep_event true event_type 0).

(** The floating-point product that line 215 or line 227 forms, factors in
    the order of the source: [a * b * c] is [(a * b) * c]. *)
Definition adjusted_product (h : Display_Handle) (spec_sleep_time_millis : Z)
    (t : Per_Thread_Data) : double :=
  if dynamic_sleep_enabled t then
    double_mul
      (double_mul
         (cur_sleep_adjustment_factor
            (dsa_update_adjustment_factor h spec_sleep_time_millis t))
         (sleep_multiplier_factor t))
      (double_of_int spec_sleep_time_millis)
  else
    double_mul
      (double_mul (double_of_int (sleep_multiplier_ct t)) (sleep_multiplier_factor t))
      (double_of_int spec_sleep_time_millis).

(** A program over the entry points of tuned_sleep.c.  [Set_thread_data]
    stands for whatever happens to the sleep data between two calls: retry
    logic changing the multiplier count, or a call made from another
    thread, with that thread's data. *)
Inductive Call : Type :=
  | Call_tuned_sleep (now : Z) (dh : option Display_Handle)
      (event_type : Sleep_Event_Type) (special_sleep_time_millis : Z)
  | Call_check_deferred_sleep (now : Z) (dh : option Display_Handle)
  | Call_enable_deferred_sleep (onoff : bool)
  | Set_thread_data (t : Per_Thread_Data).

Definition exec (c : Call) (w : World) : Outcome World :=
  match c with
  | Call_tuned_sleep now dh event_type special =>
      tuned_sleep_with_trace now dh event_type special w
  | Call_check_deferred_sleep now dh => check_deferred_sleep now dh w
  | Call_enable_deferred_sleep onoff => mret (snd (enable_deferred_sleep onoff w))
  | Set_thread_data t => mret (set_tsd t w)
  end.

Fixpoint exec_all (cs : list Call) (w : World) : Outcome World :=
  match cs with
  | [] => mret w
  | c :: cs' => w' ← exec c w; exec_all cs' w'
  end.

(** No display reference of [m] is lost in [m'], none changes its IO mode,
    and no [next_i2c_io_after] is lower in [m'] than in [m]. *)
Definition refs_raised (m m' : gmap nat Display_Ref) : Prop :=
  forall (p : nat) (d : Display_Ref),
    m !! p = Some d ->
    exists d', m' !! p = Some d'
               /\ io_mode d' = io_mode d
               /\ next_i2c_io_after d <= next_i2c_io_after d'.

(** *** The spec's wording, for comparison with the code *)


(** The column "Deferrable" of the same table. *)
Definition spec_table_deferrable (event_type : Sleep_Event_Type) : bool :=
  match event_type with
  | SE_POST_WRITE | SE_POST_READ | SE_POST_SAVE_SETTINGS
  | SE_POST_CAP_TABLE_COMMAND => true
  | _ => false
  end.


(** *** Sample data *)

Definition double_0_6 : double := S754_finite false 5404319552844595 (-53).
Definition double_1 : double := S754_finite false 4503599627370496 (-52).

Definition sample_tsd (dynamic : bool) (factor : double) (ct : Z) (adj : double)
  : Per_Thread_Data :=
  {| dynamic_sleep_enabled := dynamic;
     sleep_multiplier_factor := factor;
     sleep_multiplier_ct := ct;
     cur_sleep_adjustment_factor := adj |}.

(** One display reference at address 7, held by [sample_dh]. *)
Definition sample_dh : Display_Handle := {| dref := 7%nat |}.

Definition sample_world (mode : DDCA_IO_Mode) (enabled : bool) (next : Z)
    (t : Per_Thread_Data) : World :=
  {| deferred_sleep_enabled := enabled;
     display_refs := {[ 7%nat := {| io_mode := mode; next_i2c_io_after := next |} ]};
     tsd := t;
     sleep_events := [];
     slept_millis := [] |}.

(** An estimator that leaves the sleep data as it is. *)
Definition dsa_keep : Display_Handle -> Z -> Per_Thread_Data -> Per_Thread_Data :=
  fun _ _ t => t.


(** ** ddc_display_ref_reports.c *)

(** Conventions for this file.  Tracing is off ([debug] is false and the
    [DBGTRC] macros print nothing).  What a function writes through the
    report functions, and what it does to a display, is the list of
    [Report_Event]s it returns, in order.  A [%s] argument is taken to
    hold no conversion specification where the source passes a message as
    the format itself. *)

(** [int + int]: overflow is undefined. *)
Definition int_add (a b : Z) : Outcome Z :=
  if in_int (a + b) then Returns (a + b) else Aborts Undefined_Behavior.

(** The part of [Error_Info] that is read: its status code. *)
Record Error_Info : Type := {
  status_code : Z
}.

(** The part of [DDCA_Any_Vcp_Value] that is read: the bytes [val.c_nc.sh]
    and [val.c_nc.sl] of a non-table value. *)
Record Nontable_Vcp_Value : Type := {
  sh : Byte.byte;
  sl : Byte.byte
}.

(** What a call of [ddc_get_vcp_value] yields: the returned [Error_Info *]
    and the value stored through its last argument. *)
Record Vcp_Result : Type := {
  ddc_excp : option Error_Info;
  valrec : option Nontable_Vcp_Value
}.

Inductive Report_Event : Type :=
  | Rpt (depth : Z) (text : string)
      (* one line written by rpt_vstring, rpt_label or rpt_title *)
  | Errinfo_report (e : Error_Info) (depth : Z)
      (* errinfo_report(e, depth) *)
  | Open_display (psc : Z) (dh : option Display_Handle)
      (* ddc_open_display returned psc and stored dh *)
  | Close_display (dh : option Display_Handle).
      (* ddc_close_display(dh) *)

(** [%d] of an [int]. *)
Definition fmt_d (n : Z) : string := pretty n.

(** [%d] of a [uint8_t]. *)
Definition fmt_d_byte (b : Byte.byte) : string := pretty (Byte.to_N b).

(** The lowercase hexadecimal digit of a value below 16. *)
Definition hex_digit (n : N) : Ascii.ascii :=
  default Ascii.zero (String.get (N.to_nat n) "0123456789abcdef").

(** [%02x] of a [uint8_t]: two lowercase hexadecimal digits. *)
Definition fmt_02x (b : Byte.byte) : string :=
  String (hex_digit (Byte.to_N b / 16)) (String (hex_digit (Byte.to_N b mod 16))
                                                 EmptyString).

(** What [snprintf] and [g_snprintf] leave in a buffer of [size] bytes:
    the first [size - 1] characters of the formatted text. *)
Definition snprintf (size : nat) (formatted : string) : string :=
  String.substring 0 (size - 1) formatted.

(** The values that the comments of the switch give (lines 176-185). *)
Definition DISPNO_BUSY : Z := -4.
Definition DISPNO_REMOVED : Z := -3.
Definition DISPNO_PHANTOM : Z := -2.
Definition DISPNO_INVALID : Z := -1.

(** The part of [I2C_Bus_Info] that is read: the marker in its first four
    bytes and its flags. *)
Record I2C_Bus_Info : Type := {
  bus_marker : string;
  bus_flags : Z
}.

(** The fields of [Display_Ref] that the report functions read, beside
    those of [dref_core], whose [io_mode] is [io_path.io_mode].
    [i2c_busno] is [io_path.path.i2c_busno]; [actual_display] points to
    another display reference or is null; [pedid] is a pointer that is
    only handed on. *)
#[local] Unset Elimination Schemes.
Inductive Display_Ref_Full : Type := Build_Display_Ref_Full {
  dref_core : Display_Ref;
  marker : string;
  dispno : Z;
  i2c_busno : Z;
  detail : option I2C_Bus_Info;
  flags : Z;
  actual_display : option Display_Ref_Full;
  pedid : nat
}.
#[local] Set Elimination Schemes.

Inductive Monitor_Quirk_Type : Type :=
  | MQ_NONE | MQ_NO_SETTING | MQ_NO_MFG_RANGE | MQ_OTHER.

Record Monitor_Quirk_Data : Type := {
  quirk_type : Monitor_Quirk_Type;
  quirk_msg : option string
}.

(** Everything ddc_display_ref_reports.c takes from files that are not
    among the sources: settings of the calling thread, constants, macros
    and functions.  A function that talks to a display or to the system is
    given by what it yields for its arguments at the time of the call; one
    that writes a report is given by its lines, each a depth and a text. *)
Record Collaborators : Type := {
  (* settings *)
  get_output_level : Z;
  IS_TRACING : bool;
  is_report_ddc_errors_enabled : bool;
  (* constants *)
  DDCRC_REPORTED_UNSUPPORTED : Z;
  DDCRC_DETERMINED_UNSUPPORTED : Z;
  DISPLAY_REF_MARKER : string;
  I2C_BUS_INFO_MARKER : string;
  DREF_DDC_COMMUNICATION_CHECKED : Z;
  DREF_DDC_COMMUNICATION_WORKING : Z;
  DREF_DDC_USES_NULL_RESPONSE_FOR_UNSUPPORTED : Z;
  I2C_BUS_EDP : Z;
  I2C_BUS_LVDS : Z;
  DDCA_OL_NORMAL : Z;
  DDCA_OL_VERBOSE : Z;
  USE_USB : bool;
  (* macros *)
  TRACED_ASSERT : bool -> Outcome unit;
  ERRINFO_FREE_WITH_REPORT : Error_Info -> bool -> list (Z * string);
  (* functions *)
  ddc_get_vcp_value : option Display_Handle -> Byte.byte -> Vcp_Result;
  sl_value_table_lookup : Byte.byte -> option string;
      (* over pxc8_display_controller_type_values *)
  sbool : bool -> string;
  i2c_report_active_display : option I2C_Bus_Info -> Z -> list (Z * string);
  usb_show_active_display_by_dref : Display_Ref_Full -> Z -> list (Z * string);
  dref_short_name_t : Display_Ref_Full -> string;
  is_embedded_parsed_edid : nat -> bool;
  collect_conflicting_drivers : Z -> Z -> option (list string);
  conflicting_driver_names_string_t : list string -> string;
  stat : string -> Z;
  get_vcp_version_by_dref : Display_Ref_Full -> Byte.byte * Byte.byte;
      (* vspec.major, vspec.minor *)
  ddc_open_display : Display_Ref_Full -> Z * option Display_Handle;
  psc_desc : Z -> string;
  get_monitor_quirks : nat -> option Monitor_Quirk_Data
      (* of the model key that monitor_model_key_value_from_edid gives *)
}.

(** The lines that a collaborator writes, as events. *)
Definition lines (written : list (Z * string)) : list Report_Event :=
  map (fun l => Rpt (fst l) (snd l)) written.

(** [x & mask], as a condition. *)
Definition flag_set (x mask : Z) : bool := negb (Z.land x mask =? 0).

(** [debug || IS_TRACING() || is_report_ddc_errors_enabled()] *)
Definition reporting_errors (c : Collaborators) : bool :=
  IS_TRACING c || is_report_ddc_errors_enabled c.

(** [(ddc_excp) ? ddc_excp->status_code : 0] *)
Definition status_of (r : Vcp_Result) : Z :=
  match ddc_excp r with
  | Some e => status_code e
  | None => 0
  end.

Definition get_firmware_version_string_t (c : Collaborators)
    (dh : option Display_Handle) : Outcome (string * list Report_Event) :=
  let r := ddc_get_vcp_value c dh Byte.xc9 in
  let psc := status_of r in
  if negb (psc =? 0) then
    e ← deref (ddc_excp r);
    if negb (psc =? DDCRC_REPORTED_UNSUPPORTED c)
       && negb (psc =? DDCRC_DETERMINED_UNSUPPORTED c)
    then mret ("DDC communication failed"%string,
               if reporting_errors c then [Errinfo_report e 1] else [])
    else mret ("Unspecified"%string, [])
  else
    v ← deref (valrec r);
    mret (snprintf 40 (fmt_d_byte (sh v) +:+ "." +:+ fmt_d_byte (sl v)), []).

Definition get_controller_mfg_string_t (c : Collaborators)
    (dh : option Display_Handle) : Outcome (string * list Report_Event) :=
  let r := ddc_get_vcp_value c dh Byte.xc8 in
  let ddcrc := status_of r in
  if ddcrc =? 0 then
    v ← deref (valrec r);
    match sl_value_table_lookup c (sl v) with
    | Some mfg_name => mret (mfg_name, [])
    | None =>
        mret (snprintf 100
                ("Unrecognized manufacturer code 0x" +:+ fmt_02x (sl v)), [])
    end
  else if (ddcrc =? DDCRC_REPORTED_UNSUPPORTED c)
          || (ddcrc =? DDCRC_DETERMINED_UNSUPPORTED c)
  then mret ("Unspecified"%string, [])
  else
    e ← deref (ddc_excp r);
    mret ("DDC communication failed"%string,
          lines (ERRINFO_FREE_WITH_REPORT c e (reporting_errors c))).

(** Lines 175-193: the line that names the display, and the depth [d1] of
    the lines below it. *)
Definition report_dispno (dispno depth d1 : Z) : list Report_Event * Z :=
  if dispno =? DISPNO_BUSY then ([Rpt depth "Busy display"], d1)
  else if dispno =? DISPNO_REMOVED then ([Rpt depth "Removed display"], d1)
  else if dispno =? DISPNO_PHANTOM then ([Rpt depth "Phantom display"], d1)
  else if dispno =? DISPNO_INVALID then ([Rpt depth "Invalid display"], d1)
  else if dispno =? 0 then ([], depth)
  else ([Rpt depth ("Display " +:+ fmt_d dispno)], d1).

(** Lines 195-214. *)
Definition report_active_display (c : Collaborators) (dref : Display_Ref_Full)
    (d1 : Z) : Outcome (list Report_Event) :=
  match io_mode (dref_core dref) with
  | DDCA_IO_I2C =>
      let curinfo := detail dref in
      TRACED_ASSERT c
        match curinfo with
        | Some info => String.eqb (bus_marker info) (I2C_BUS_INFO_MARKER c)
        | None => false
        end;;
      mret (lines (i2c_report_active_display c curinfo d1))
  | DDCA_IO_ADL => PROGRAM_LOGIC_ERROR
  | DDCA_IO_USB =>
      if USE_USB c
      then mret (lines (usb_show_active_display_by_dref c dref d1))
      else PROGRAM_LOGIC_ERROR
  end.

(** Lines 248-268: the display number is [DISPNO_BUSY]. *)
Definition report_busy (c : Collaborators) (dref : Display_Ref_Full) (d1 : Z)
  : list Report_Event :=
  let busno := i2c_busno dref in
  Rpt d1 "I2C device is busy" ::
  match collect_conflicting_drivers c busno (-1) with
  | Some (driver :: drivers) =>
      [Rpt d1 ("Likely conflicting drivers: "
               +:+ conflicting_driver_names_string_t c (driver :: drivers))]
  | _ =>
      let buf := snprintf 20 ("/dev/bus/ddcci/" +:+ fmt_d (i2c_busno dref)) in
      if stat c buf =? 0
      then [Rpt d1 "I2C device is busy.  Likely conflict with driver ddcci."]
      else []
  end.

(** Lines 237-271: what is written, and [msg], for a display that is not
    a phantom. *)
Definition explain_i2c_failure (c : Collaborators) (dref : Display_Ref_Full)
    (d1 : Z) : Outcome (list Report_Event * option string) :=
  if bool_decide (io_mode (dref_core dref) = DDCA_IO_I2C) then
    curinfo ← deref (detail dref);
    if flag_set (bus_flags curinfo) (I2C_BUS_EDP c) then
      mret ([], Some "This is an eDP laptop display. Laptop displays do not support DDC/CI."%string)
    else if flag_set (bus_flags curinfo) (I2C_BUS_LVDS c) then
      mret ([], Some "This is a LVDS laptop display. Laptop displays do not support DDC/CI."%string)
    else if is_embedded_parsed_edid c (pedid dref) then
      mret ([], Some "This appears to be a laptop display. Laptop displays do not support DDC/CI."%string)
    else if dispno dref =? DISPNO_BUSY then
      mret (report_busy c dref d1,
            Some "Try using option --force-slave-address"%string)
    else mret ([], None)
  else mret ([], None).

(** Lines 221-281: DDC communication is not working. *)
Definition report_communication_failed (c : Collaborators)
    (dref : Display_Ref_Full) (d1 output_level : Z)
  : Outcome (list Report_Event) :=
  '(written, msg) ←
    (if dispno dref =? DISPNO_PHANTOM then
       match actual_display dref with
       | Some actual =>
           mret ([], Some (snprintf 100 ("Use non-phantom device "
                                         +:+ dref_short_name_t c actual)))
       | None => mret ([], Some "Use non-phantom device"%string)
       end
     else
       '(written, msg) ← explain_i2c_failure c dref d1;
       if DDCA_OL_VERBOSE c <=? output_level then
         match msg with
         | None =>
             mret (written,
                   Some "Is DDC/CI enabled in the monitor's on-screen display?"%string)
         | Some _ => mret (written, msg)
         end
       else mret (written, msg));
  mret (Rpt d1 "DDC communication failed" :: written
        ++ match msg with
           | Some text => [Rpt d1 text]
           | None => []
           end).

(** Lines 290-311: the lines of the verbose output level. *)
Definition report_controller (c : Collaborators) (dref : Display_Ref_Full)
    (d1 : Z) : Outcome (list Report_Event) :=
  let '(psc, dh) := ddc_open_display c dref in
  opened ←
    (if negb (psc =? 0) then
       mret [Open_display psc dh;
             Rpt d1 ("Error opening display " +:+ dref_short_name_t c dref
                     +:+ ", error = " +:+ psc_desc c psc)]
     else
       '(mfg, written1) ← get_controller_mfg_string_t c dh;
       '(version, written2) ← get_firmware_version_string_t c dh;
       mret (Open_display psc dh :: written1
             ++ Rpt d1 ("Controller mfg:      " +:+ mfg) :: written2
             ++ [Rpt d1 ("Firmware version:    " +:+ version);
                 Close_display dh]));
  mret (opened
        ++ if bool_decide (io_mode (dref_core dref) <> DDCA_IO_USB)
           then [Rpt d1
                   ("Monitor returns DDC Null Response for unsupported features: "
                    +:+ sbool c
                          (flag_set (flags dref)
                             (DREF_DDC_USES_NULL_RESPONSE_FOR_UNSUPPORTED c)))]
           else []).

(** Lines 312-331. *)
Definition report_quirk (c : Collaborators) (dref : Display_Ref_Full) (d1 : Z)
  : list Report_Event :=
  match get_monitor_quirks c (pedid dref) with
  | Some quirk =>
      let msg :=
        match quirk_type quirk with
        | MQ_NONE => None
        | MQ_NO_SETTING =>
            Some "WARNING: Setting feature values has been reported to permanently cripple this monitor!"%string
        | MQ_NO_MFG_RANGE =>
            Some "WARNING: Setting manufacturer reserved features has been reported to permanently cripple this monitor!"%string
        | MQ_OTHER => quirk_msg quirk
        end in
      match msg with
      | Some text => [Rpt d1 text]
      | None => []
      end
  | None => []
  end.

(** Lines 282-332: DDC communication is working. *)
Definition report_communication_working (c : Collaborators)
    (dref : Display_Ref_Full) (d1 output_level : Z)
  : Outcome (list Report_Event) :=
  let '(major, minor) := get_vcp_version_by_dref c dref in
  let version_line :=
    if (Byte.to_N major =? 0)%N
    then Rpt d1 "VCP version:         Detection failed"
    else Rpt d1 ("VCP version:         " +:+ fmt_d_byte major +:+ "."
                 +:+ fmt_d_byte minor) in
  controller ←
    (if DDCA_OL_VERBOSE c <=? output_level
     then report_controller c dref d1
     else mret []);
  mret (version_line :: controller ++ report_quirk c dref d1).

Definition ddc_report_display_by_dref (c : Collaborators)
    (dref : option Display_Ref_Full) (depth : Z)
  : Outcome (list Report_Event) :=
  TRACED_ASSERT c
    match dref with
    | Some r => String.eqb (marker r) (DISPLAY_REF_MARKER c)
    | None => false
    end;;
  d1 ← int_add depth 1;
  r ← deref dref;
  let '(named, d1) := report_dispno (dispno r) depth d1 in
  active ← report_active_display c r d1;
  TRACED_ASSERT c (flag_set (flags r) (DREF_DDC_COMMUNICATION_CHECKED c));;
  let output_level := get_output_level c in
  rest ←
    (if DDCA_OL_NORMAL c <=? output_level then
       if negb (flag_set (flags r) (DREF_DDC_COMMUNICATION_WORKING c))
       then report_communication_failed c r d1 output_level
       else report_communication_working c r d1 output_level
     else mret []);
  mret (named ++ active ++ rest).

(** The loop of [ddc_report_displays] over the displays from index [ndx]
    on: the count, and what is written. *)
Fixpoint report_displays_from (c : Collaborators) (include_invalid_displays : bool)
    (depth : Z) (displays : list (option Display_Ref_Full)) (ndx display_ct : Z)
  : Outcome (Z * list Report_Event) :=
  match displays with
  | [] => mret (display_ct, [])
  | dref :: displays' =>
      r ← deref dref;
      TRACED_ASSERT c (String.eqb (marker r) (DISPLAY_REF_MARKER c));;
      '(display_ct', written) ←
        (if (0 <? dispno r) || include_invalid_displays then
           display_ct' ← int_add display_ct 1;
           written ← ddc_report_display_by_dref c dref depth;
           mret (display_ct', written ++ [Rpt 0 EmptyString])
         else mret (display_ct, []));
      ndx' ← int_add ndx 1;
      '(total, written') ←
        report_displays_from c include_invalid_displays depth displays'
                             ndx' display_ct';
      mret (total, written ++ written')
  end.

(** [all_displays] is what [ddc_get_all_displays()] returns once
    [ddc_ensure_displays_detected()] has run. *)
Definition ddc_report_displays (c : Collaborators)
    (all_displays : list (option Display_Ref_Full))
    (include_invalid_displays : bool) (depth : Z)
  : Outcome (Z * list Report_Event) :=
  '(display_ct, written) ←
    report_displays_from c include_invalid_displays depth all_displays 0 0;
  mret (display_ct,
        written ++
        if display_ct =? 0 then
          Rpt depth ("No " +:+ (if negb include_invalid_displays
                                then "active "%string else EmptyString)
                     +:+ "displays found.")
          :: if DDCA_OL_NORMAL c <=? get_output_level c then
               [Rpt depth "Is DDC/CI enabled in the monitor's on screen display?";
                Rpt depth ("Run " +:+ String (Ascii.ascii_of_nat 34)
                                        "ddcutil environment"
                           +:+ String (Ascii.ascii_of_nat 34)
                                 " to check for system configuration problems.")]
             else []
        else []).

(** The displays that [ddc_report_displays] reports. *)
Definition is_reported (include_invalid_displays : bool)
    (dref : option Display_Ref_Full) : bool :=
  match dref with
  | Some r => (0 <? dispno r) || include_invalid_displays
  | None => false
  end.

(** The events of a report that open or close a display. *)
Definition is_open_or_close (e : Report_Event) : bool :=
  match e with
  | Open_display _ _ | Close_display _ => true
  | _ => false
  end.

(** No character of [s] is a full stop. *)
Fixpoint dotless (s : string) : bool :=
  match s with
  | EmptyString => true
  | String a s' => negb (Ascii.eqb a (Ascii.ascii_of_nat 46)) && dotless s'
  end.

(** *** Sample data for the report functions *)

(** Collaborators with sample constants: output level [level]; reading a
    feature yields [vcp feature]; no controller type is known; opening a
    display yields [opened]; a failed traced assertion ends the call. *)
Definition sample_collaborators (level : Z) (vcp : Byte.byte -> Vcp_Result)
    (opened : Z * option Display_Handle) : Collaborators :=
  {| get_output_level := level;
     IS_TRACING := false;
     is_report_ddc_errors_enabled := true;
     DDCRC_REPORTED_UNSUPPORTED := -3005;
     DDCRC_DETERMINED_UNSUPPORTED := -3012;
     DISPLAY_REF_MARKER := "DREF";
     I2C_BUS_INFO_MARKER := "BINF";
     DREF_DDC_COMMUNICATION_CHECKED := 1;
     DREF_DDC_COMMUNICATION_WORKING := 2;
     DREF_DDC_USES_NULL_RESPONSE_FOR_UNSUPPORTED := 4;
     I2C_BUS_EDP := 1;
     I2C_BUS_LVDS := 2;
     DDCA_OL_NORMAL := 8;
     DDCA_OL_VERBOSE := 16;
     USE_USB := false;
     TRACED_ASSERT := fun cond =>
       if cond then Returns tt else Aborts Program_Logic_Error;
     ERRINFO_FREE_WITH_REPORT := fun _ _ => [];
     ddc_get_vcp_value := fun _ feature => vcp feature;
     sl_value_table_lookup := fun _ => None;
     sbool := fun b => if b then "true"%string else "false"%string;
     i2c_report_active_display := fun _ d => [(d, "I2C bus:  /dev/i2c-4"%string)];
     usb_show_active_display_by_dref := fun _ _ => [];
     dref_short_name_t := fun _ => "bus /dev/i2c-4"%string;
     is_embedded_parsed_edid := fun _ => false;
     collect_conflicting_drivers := fun _ _ => None;
     conflicting_driver_names_string_t := fun _ => EmptyString;
     stat := fun _ => -1;
     get_vcp_version_by_dref := fun _ => (Byte.x02, Byte.x01);
     ddc_open_display := fun _ => opened;
     psc_desc := fun _ => "DDCRC_OTHER"%string;
     get_monitor_quirks := fun _ => None |}.

(** Feature reads: a value with [sh] 1 and [sl] 0x1f; a failure with
    status -3005. *)
Definition sample_vcp_value (feature : Byte.byte) : Vcp_Result :=
  {| ddc_excp := None; valrec := Some {| sh := Byte.x01; sl := Byte.x1f |} |}.

Definition sample_vcp_unsupported (feature : Byte.byte) : Vcp_Result :=
  {| ddc_excp := Some {| status_code := -3005 |}; valrec := None |}.

(** An I2C display on bus 4 with display number [number] and flags
    [dref_flags]. *)
Definition sample_dref (number dref_flags : Z) : Display_Ref_Full :=
  {| dref_core := {| io_mode := DDCA_IO_I2C; next_i2c_io_after := 0 |};
     marker := "DREF";
     dispno := number;
     i2c_busno := 4;
     detail := Some {| bus_marker := "BINF"; bus_flags := 0 |};
     flags := dref_flags;
     actual_display := None;
     pedid := 0%nat |}.
(** ** Properties *)

(** *** The outcome monad *)

Lemma bind_Returns_inv {A B : Type} (m : Outcome A) (k : A -> Outcome B) (b : B) :
  m ≫= k = Returns b -> exists a, m = Returns a /\ k a = Returns b.
Proof. destruct m as [a|f]; simpl; [eauto | discriminate]. Qed.

Lemma bind_Aborts_inv {A B : Type} (m : Outcome A) (k : A -> Outcome B) (f : Abort) :
  m ≫= k = Aborts f ->
  m = Aborts f \/ exists a, m = Returns a /\ k a = Aborts f.
Proof. destruct m as [a|g]; simpl; [eauto | intros [= ->]; auto]. Qed.

(** *** Strategy dispatcher *)

(** C9. Selecting a strategy and then asking for the current one gives the
    id just selected, and [i2c_set_io_strategy] returns the id that
    [i2c_get_io_strategy] gave before the call. *)
Theorem i2c_set_get_io_strategy_roundtrip
    (id : I2C_IO_Strategy_Id) (cur : I2C_IO_Strategy) :
  i2c_get_io_strategy (snd (i2c_set_io_strategy id cur)) = id
  /\ fst (i2c_set_io_strategy id cur) = i2c_get_io_strategy cur.
Proof. destruct id; split; reflexivity. Qed.

(** C3. [invoke_i2c_writer] and [invoke_i2c_reader] never return a positive
    status: a call that returns hands back the strategy's own status, which
    is zero or negative, and a strategy function that yields a positive
    status makes the call fail its assertion [rc <= 0]. *)
Theorem invoke_i2c_status_never_positive
    (cur : I2C_IO_Strategy) (fd : Z) (slave_address : Byte.byte)
    (read_bytewise : bool) (bytect : Z) (bytes readbuf : list Byte.byte)
    (bus : Bus) :
  match invoke_i2c_writer cur fd slave_address bytect bytes bus with
  | Returns (rc, bus') =>
      rc <= 0 /\ i2c_writer cur fd slave_address bytect bytes bus = (rc, bus')
  | Aborts f =>
      f = Assertion_Failed Assert_rc_nonpositive
      /\ 0 < fst (i2c_writer cur fd slave_address bytect bytes bus)
  end
  /\
  match invoke_i2c_reader cur fd slave_address read_bytewise bytect readbuf bus with
  | Returns (rc, readbuf', bus') =>
      rc <= 0
      /\ i2c_reader cur fd slave_address read_bytewise bytect readbuf bus
         = (rc, readbuf', bus')
  | Aborts f =>
      f = Assertion_Failed Assert_rc_nonpositive
      /\ 0 < fst (fst (i2c_reader cur fd slave_address read_bytewise bytect readbuf bus))
  end.
Proof.
  unfold invoke_i2c_writer, invoke_i2c_reader. split.
  - destruct (i2c_writer cur fd slave_address bytect bytes bus) as [rc bus'].
    destruct (Z.leb_spec rc 0); simpl; split; auto.
  - destruct (i2c_reader cur fd slave_address read_bytewise bytect readbuf bus)
      as [[rc readbuf'] bus'].
    destruct (Z.leb_spec rc 0); simpl; split; auto.
Qed.

(** *** The sleep table *)

Lemma deferrable_event_table (event_type : Sleep_Event_Type) :
  deferrable_event event_type = spec_table_deferrable event_type.
Proof. destruct event_type; reflexivity. Qed.

Lemma i2c_sleep_event_deferrable (enabled : bool) (event_type : Sleep_Event_Type)
    (special : Z) :
  snd (i2c_sleep_event enabled event_type special)
  = enabled && deferrable_event event_type.
Proof. destruct event_type, enabled; reflexivity. Qed.


(** *** [tuned_sleep_with_trace], step by step *)

Lemma special_sleep_time_ok_spec (event_type : Sleep_Event_Type) (special : Z) :
  special_sleep_time_ok event_type special = true
  <-> (event_type <> SE_SPECIAL /\ special = 0)
      \/ (event_type = SE_SPECIAL /\ 0 < special).
Proof.
  unfold special_sleep_time_ok.
  rewrite orb_true_iff, !andb_true_iff, negb_true_iff.
  rewrite bool_decide_eq_false, bool_decide_eq_true, Z.eqb_eq, Z.ltb_lt.
  reflexivity.
Qed.

Lemma sleep_time_for_io_mode_cases (mode : DDCA_IO_Mode) (enabled : bool)
    (event_type : Sleep_Event_Type) (special : Z) :
  sleep_time_for_io_mode mode enabled event_type special =
  match mode with
  | DDCA_IO_I2C => Returns (i2c_sleep_event enabled event_type special)
  | DDCA_IO_ADL => Aborts (Assertion_Failed Assert_io_mode_usb)
  | DDCA_IO_USB => Aborts Program_Logic_Error
  end.
Proof. destruct mode; reflexivity. Qed.

(** The call on a valid handle, after the two assertions. *)
Lemma tuned_sleep_unfold (now : Z) (h : Display_Handle)
    (event_type : Sleep_Event_Type) (special : Z) (w : World) (d : Display_Ref) :
  display_refs w !! dref h = Some d ->
  special_sleep_time_ok event_type special = true ->
  tuned_sleep_with_trace now (Some h) event_type special w =
  match io_mode d with
  | DDCA_IO_I2C =>
      let sd := i2c_sleep_event (deferred_sleep_enabled w) event_type special in
      '(adjusted, t') ← adjusted_sleep_time h (fst sd) (tsd w);
      defer_or_sleep now (dref h) d (snd sd) adjusted
        (record_sleep_event event_type (set_tsd t' w))
  | DDCA_IO_ADL => Aborts (Assertion_Failed Assert_io_mode_usb)
  | DDCA_IO_USB => Aborts Program_Logic_Error
  end.
Proof.
  intros Hd Hok. unfold tuned_sleep_with_trace.
  rewrite Hok. simpl. rewrite Hd. simpl.
  rewrite sleep_time_for_io_mode_cases.
  destruct (io_mode d); simpl; try reflexivity.
  destruct (i2c_sleep_event _ _ _); reflexivity.
Qed.

Lemma tuned_sleep_bad_special (now : Z) (h : Display_Handle)
    (event_type : Sleep_Event_Type) (special : Z) (w : World) :
  special_sleep_time_ok event_type special = false ->
  tuned_sleep_with_trace now (Some h) event_type special w
  = Aborts (Assertion_Failed Assert_special_sleep_time).
Proof. intros Hok. unfold tuned_sleep_with_trace. rewrite Hok. reflexivity. Qed.

Lemma tuned_sleep_dangling (now : Z) (h : Display_Handle)
    (event_type : Sleep_Event_Type) (special : Z) (w : World) :
  display_refs w !! dref h = None ->
  special_sleep_time_ok event_type special = true ->
  tuned_sleep_with_trace now (Some h) event_type special w
  = Aborts Undefined_Behavior.
Proof.
  intros Hd Hok. unfold tuned_sleep_with_trace.
  rewrite Hok. simpl. rewrite Hd. reflexivity.
Qed.

Lemma double_to_int_abort (x : double) (f : Abort) :
  double_to_int x = Aborts f -> f = Undefined_Behavior.
Proof.
  destruct x; simpl; try congruence.
  destruct (in_int _); congruence.
Qed.

Lemma adjusted_sleep_time_product (h : Display_Handle) (base : Z)
    (t : Per_Thread_Data) :
  adjusted_sleep_time h base t =
  adjusted ← double_to_int (adjusted_product h base t);
  mret (adjusted,
        if dynamic_sleep_enabled t
        then dsa_update_adjustment_factor h base t else t).
Proof.
  unfold adjusted_sleep_time, adjusted_product.
  destruct (dynamic_sleep_enabled t); reflexivity.
Qed.

Lemma adjusted_sleep_time_abort (h : Display_Handle) (base : Z)
    (t : Per_Thread_Data) (f : Abort) :
  adjusted_sleep_time h base t = Aborts f -> f = Undefined_Behavior.
Proof.
  rewrite adjusted_sleep_time_product. intros H.
  apply bind_Aborts_inv in H as [H | (a & _ & H)]; [|discriminate].
  eauto using double_to_int_abort.
Qed.

Lemma defer_or_sleep_abort (now : Z) (p : nat) (d : Display_Ref)
    (deferrable : bool) (adjusted : Z) (w : World) (f : Abort) :
  defer_or_sleep now p d deferrable adjusted w = Aborts f ->
  f = Undefined_Behavior.
Proof.
  unfold defer_or_sleep, new_deferred_time, int_mul.
  destruct deferrable; [|discriminate].
  destruct (in_int _); simpl; [|congruence].
  destruct (_ <? _); discriminate.
Qed.

(** On an I2C display, once the entry assertions hold, the only way for the
    call not to return is undefined arithmetic. *)
Lemma tuned_sleep_i2c_abort (now : Z) (h : Display_Handle)
    (event_type : Sleep_Event_Type) (special : Z) (w : World) (d : Display_Ref)
    (f : Abort) :
  display_refs w !! dref h = Some d ->
  io_mode d = DDCA_IO_I2C ->
  special_sleep_time_ok event_type special = true ->
  tuned_sleep_with_trace now (Some h) event_type special w = Aborts f ->
  f = Undefined_Behavior.
Proof.
  intros Hd Hm Hok. rewrite (tuned_sleep_unfold _ _ _ _ _ _ Hd Hok), Hm.
  cbv zeta. intros H.
  apply bind_Aborts_inv in H as [H | ([a t'] & _ & H)].
  - eauto using adjusted_sleep_time_abort.
  - eauto using defer_or_sleep_abort.
Qed.

(** What a returning call went through. *)
Lemma tuned_sleep_Returns_inv (now : Z) (dh : option Display_Handle)
    (event_type : Sleep_Event_Type) (special : Z) (w w' : World) :
  tuned_sleep_with_trace now dh event_type special w = Returns w' ->
  exists h d adjusted,
    dh = Some h
    /\ special_sleep_time_ok event_type special = true
    /\ display_refs w !! dref h = Some d
    /\ io_mode d = DDCA_IO_I2C
    /\ double_to_int
         (adjusted_product h
            (fst (i2c_sleep_event (deferred_sleep_enabled w) event_type special))
            (tsd w))
       = Returns adjusted
    /\ defer_or_sleep now (dref h) d
         (snd (i2c_sleep_event (deferred_sleep_enabled w) event_type special))
         adjusted
         (record_sleep_event event_type
            (set_tsd
               (if dynamic_sleep_enabled (tsd w)
                then dsa_update_adjustment_factor h
                       (fst (i2c_sleep_event (deferred_sleep_enabled w)
                                             event_type special))
                       (tsd w)
                else tsd w)
               w))
       = Returns w'.
Proof.
  destruct dh as [h|]; [|discriminate].
  destruct (special_sleep_time_ok event_type special) eqn:Hok;
    [|rewrite tuned_sleep_bad_special by assumption; discriminate].
  destruct (display_refs w !! dref h) as [d|] eqn:Hd;
    [|rewrite tuned_sleep_dangling by assumption; discriminate].
  rewrite (tuned_sleep_unfold _ _ _ _ _ _ Hd Hok).
  destruct (io_mode d) eqn:Hm; try discriminate.
  cbv zeta. rewrite adjusted_sleep_time_product. intros H.
  apply bind_Returns_inv in H as ([a t'] & H1 & H2).
  apply bind_Returns_inv in H1 as (a' & H1 & [= <- <-]).
  exists h, d, a'. repeat split; auto.
Qed.

(** C7. On a handle that is not null, [tuned_sleep_with_trace] fails the
    assertion on [special_sleep_time_millis] exactly when the combination
    is not a valid one: valid are a zero value with an event type other
    than [SE_SPECIAL], and a positive value with [SE_SPECIAL]. *)
Theorem tuned_sleep_special_millis_precondition
    (now : Z) (h : Display_Handle) (event_type : Sleep_Event_Type)
    (special : Z) (w : World) :
  tuned_sleep_with_trace now (Some h) event_type special w
    = Aborts (Assertion_Failed Assert_special_sleep_time)
  <-> ~ ((event_type <> SE_SPECIAL /\ special = 0)
         \/ (event_type = SE_SPECIAL /\ 0 < special)).
Proof.
  rewrite <- special_sleep_time_ok_spec.
  destruct (special_sleep_time_ok event_type special) eqn:Hok.
  - split; [|intros H; now destruct H].
    intros H. exfalso.
    destruct (display_refs w !! dref h) as [d|] eqn:Hd;
      [|rewrite tuned_sleep_dangling in H by assumption; discriminate].
    destruct (io_mode d) eqn:Hm.
    + apply (tuned_sleep_i2c_abort _ _ _ _ _ _ _ Hd Hm Hok) in H. discriminate.
    + rewrite (tuned_sleep_unfold _ _ _ _ _ _ Hd Hok), Hm in H. discriminate.
    + rewrite (tuned_sleep_unfold _ _ _ _ _ _ Hd Hok), Hm in H. discriminate.
  - split; [intros _; discriminate|].
    intros _. now apply tuned_sleep_bad_special.
Qed.

(** C8. On a handle whose display uses USB, [tuned_sleep_with_trace] never
    returns, whatever the event type and the special time: it ends in the
    program logic error of the USB branch, or, when the combination of
    event type and special time is invalid, already in the entry assertion.
    On a handle whose display uses I2C the program logic error is never
    reached. *)
Theorem tuned_sleep_usb_is_fatal
    (now : Z) (h : Display_Handle) (event_type : Sleep_Event_Type)
    (special : Z) (w : World) (d : Display_Ref) :
  display_refs w !! dref h = Some d ->
  (io_mode d = DDCA_IO_USB ->
     tuned_sleep_with_trace now (Some h) event_type special w
     = Aborts (if special_sleep_time_ok event_type special
               then Program_Logic_Error
               else Assertion_Failed Assert_special_sleep_time))
  /\ (io_mode d = DDCA_IO_I2C ->
        tuned_sleep_with_trace now (Some h) event_type special w
        <> Aborts Program_Logic_Error).
Proof.
  intros Hd.
  destruct (special_sleep_time_ok event_type special) eqn:Hok; split; intros Hm.
  - rewrite (tuned_sleep_unfold _ _ _ _ _ _ Hd Hok), Hm. reflexivity.
  - intros H.
    apply (tuned_sleep_i2c_abort _ _ _ _ _ _ _ Hd Hm Hok) in H. discriminate.
  - now apply tuned_sleep_bad_special.
  - rewrite tuned_sleep_bad_special by assumption. discriminate.
Qed.

(** *** Deferring *)

Lemma to_uint64_small (z : Z) : 0 <= z < 2 ^ 64 -> to_uint64 z = z.
Proof. intros H. unfold to_uint64. now apply Z.mod_small. Qed.

Lemma defer_or_sleep_not_deferrable (now : Z) (p : nat) (d : Display_Ref)
    (adjusted : Z) (w : World) :
  defer_or_sleep now p d false adjusted w
  = Returns (sleep_millis_with_trace adjusted w).
Proof. reflexivity. Qed.

Lemma defer_or_sleep_deferrable (now : Z) (p : nat) (d : Display_Ref)
    (adjusted : Z) (w : World) :
  defer_or_sleep now p d true adjusted w =
  if in_int (1000 * 1000 * adjusted) then
    Returns (if next_i2c_io_after d <? to_uint64 (now + 1000 * 1000 * adjusted)
             then store_next_i2c_io_after p d
                    (to_uint64 (now + 1000 * 1000 * adjusted)) w
             else w)
  else Aborts Undefined_Behavior.
Proof.
  unfold defer_or_sleep, new_deferred_time, int_mul.
  destruct (in_int _); simpl; [|reflexivity].
  destruct (_ <? _); reflexivity.
Qed.

Lemma refs_raised_refl (m : gmap nat Display_Ref) : refs_raised m m.
Proof. intros p d Hp. exists d. repeat split; [assumption | lia]. Qed.

Lemma refs_raised_trans (m1 m2 m3 : gmap nat Display_Ref) :
  refs_raised m1 m2 -> refs_raised m2 m3 -> refs_raised m1 m3.
Proof.
  intros H12 H23 p d Hp.
  destruct (H12 p d Hp) as (d2 & Hp2 & Hm2 & Hle2).
  destruct (H23 p d2 Hp2) as (d3 & Hp3 & Hm3 & Hle3).
  exists d3. repeat split; [assumption | congruence | lia].
Qed.

Lemma refs_raised_store (m : gmap nat Display_Ref) (p : nat) (d : Display_Ref)
    (v : Z) :
  m !! p = Some d ->
  next_i2c_io_after d <= v ->
  refs_raised m (<[p := {| io_mode := io_mode d; next_i2c_io_after := v |}]> m).
Proof.
  intros Hp Hle q dq Hq. destruct (decide (p = q)) as [->|Hne].
  - rewrite lookup_insert_eq. eexists. split; [reflexivity|].
    assert (dq = d) as -> by congruence. simpl. split; [reflexivity | lia].
  - rewrite lookup_insert_ne by assumption.
    exists dq. repeat split; [assumption | lia].
Qed.

Lemma defer_or_sleep_raises (now : Z) (p : nat) (d : Display_Ref)
    (deferrable : bool) (adjusted : Z) (w w' : World) :
  display_refs w !! p = Some d ->
  defer_or_sleep now p d deferrable adjusted w = Returns w' ->
  refs_raised (display_refs w) (display_refs w').
Proof.
  intros Hp. destruct deferrable.
  - rewrite defer_or_sleep_deferrable.
    destruct (in_int _); [|discriminate].
    destruct (Z.ltb_spec (next_i2c_io_after d)
                (to_uint64 (now + 1000 * 1000 * adjusted))) as [Hlt|Hge];
      intros [= <-].
    + simpl. apply refs_raised_store; [assumption | lia].
    + apply refs_raised_refl.
  - rewrite defer_or_sleep_not_deferrable. intros [= <-].
    apply refs_raised_refl.
Qed.

Lemma tuned_sleep_raises (now : Z) (dh : option Display_Handle)
    (event_type : Sleep_Event_Type) (special : Z) (w w' : World) :
  tuned_sleep_with_trace now dh event_type special w = Returns w' ->
  refs_raised (display_refs w) (display_refs w').
Proof.
  intros H.
  apply tuned_sleep_Returns_inv in H
    as (h & d & adjusted & -> & _ & Hd & _ & _ & H).
  now apply defer_or_sleep_raises in H.
Qed.

Lemma check_deferred_sleep_refs (now : Z) (dh : option Display_Handle)
    (w w' : World) :
  check_deferred_sleep now dh w = Returns w' ->
  display_refs w' = display_refs w.
Proof.
  unfold check_deferred_sleep. destruct dh as [h|]; [|discriminate]. simpl.
  destruct (display_refs w !! dref h) as [d|]; [|discriminate]. simpl.
  destruct (_ <? _); intros [= <-]; reflexivity.
Qed.

Lemma exec_raises (c : Call) (w w' : World) :
  exec c w = Returns w' -> refs_raised (display_refs w) (display_refs w').
Proof.
  destruct c; simpl.
  - apply tuned_sleep_raises.
  - intros H. apply check_deferred_sleep_refs in H. rewrite H.
    apply refs_raised_refl.
  - intros [= <-]. apply refs_raised_refl.
  - intros [= <-]. apply refs_raised_refl.
Qed.

Lemma exec_all_raises (cs : list Call) (w w' : World) :
  exec_all cs w = Returns w' -> refs_raised (display_refs w) (display_refs w').
Proof.
  revert w. induction cs as [|c cs IH]; intros w; simpl.
  - intros [= <-]. apply refs_raised_refl.
  - intros H. apply bind_Returns_inv in H as (w1 & H1 & H2).
    eapply refs_raised_trans; [eapply exec_raises | eapply IH]; eassumption.
Qed.

(** What a returning call leaves in the store of display references. *)
Lemma tuned_sleep_store (now : Z) (h : Display_Handle)
    (event_type : Sleep_Event_Type) (special : Z) (w w' : World) :
  tuned_sleep_with_trace now (Some h) event_type special w = Returns w' ->
  exists d adjusted,
    display_refs w !! dref h = Some d
    /\ double_to_int
         (adjusted_product h
            (fst (i2c_sleep_event (deferred_sleep_enabled w) event_type special))
            (tsd w))
       = Returns adjusted
    /\ if snd (i2c_sleep_event (deferred_sleep_enabled w) event_type special)
       then
         in_int (1000 * 1000 * adjusted) = true
         /\ slept_millis w' = slept_millis w
         /\ display_refs w' =
            if next_i2c_io_after d <? to_uint64 (now + 1000 * 1000 * adjusted)
            then <[dref h := {| io_mode := io_mode d;
                                next_i2c_io_after :=
                                  to_uint64 (now + 1000 * 1000 * adjusted) |}]>
                   (display_refs w)
            else display_refs w
       else
         slept_millis w' = slept_millis w ++ [adjusted]
         /\ display_refs w' = display_refs w.
Proof.
  intros H.
  apply tuned_sleep_Returns_inv in H
    as (h' & d & adjusted & [= <-] & _ & Hd & _ & Hadj & H).
  exists d, adjusted. split; [assumption|]. split; [assumption|].
  destruct (snd _).
  - rewrite defer_or_sleep_deferrable in H.
    destruct (in_int _); [|discriminate]. split; [reflexivity|].
    destruct (_ <? _); injection H as <-; split; reflexivity.
  - rewrite defer_or_sleep_not_deferrable in H. injection H as <-.
    split; reflexivity.
Qed.

(** C1. [next_i2c_io_after] is raise-only.  A call that returns has stored
    the candidate, the [uint64_t] sum of the clock and the adjusted delay
    in nanoseconds, exactly when the sleep is deferrable and the candidate
    is strictly greater than the stored value, and has left the store as
    it was otherwise; and over any sequence of calls of the entry points of
    tuned_sleep.c no display reference's [next_i2c_io_after] decreases. *)
Theorem next_i2c_io_after_raise_only :
  (forall (now : Z) (h : Display_Handle) (event_type : Sleep_Event_Type)
          (special : Z) (w w' : World),
      tuned_sleep_with_trace now (Some h) event_type special w = Returns w' ->
      exists d adjusted,
        display_refs w !! dref h = Some d
        /\ double_to_int
             (adjusted_product h
                (fst (i2c_sleep_event (deferred_sleep_enabled w) event_type special))
                (tsd w))
           = Returns adjusted
        /\ display_refs w' =
           if snd (i2c_sleep_event (deferred_sleep_enabled w) event_type special)
              && (next_i2c_io_after d <? to_uint64 (now + 1000 * 1000 * adjusted))
           then <[dref h := {| io_mode := io_mode d;
                               next_i2c_io_after :=
                                 to_uint64 (now + 1000 * 1000 * adjusted) |}]>
                  (display_refs w)
           else display_refs w)
  /\ (forall (cs : list Call) (w w' : World),
         exec_all cs w = Returns w' ->
         refs_raised (display_refs w) (display_refs w')).
Proof.
  split.
  - intros now h event_type special w w' H.
    apply tuned_sleep_store in H as (d & adjusted & Hd & Hadj & H).
    exists d, adjusted. split; [assumption|]. split; [assumption|].
    destruct (snd _); simpl.
    + now destruct H as (_ & _ & ->).
    + now destruct H as (_ & ->).
  - apply exec_all_raises.
Qed.

(** On an I2C display every call with valid arguments returns, unless its
    arithmetic is undefined: this is the world it returns. *)
Lemma tuned_sleep_i2c_returns (now : Z) (h : Display_Handle)
    (event_type : Sleep_Event_Type) (special : Z) (w : World) (d : Display_Ref)
    (adjusted : Z) :
  display_refs w !! dref h = Some d ->
  io_mode d = DDCA_IO_I2C ->
  special_sleep_time_ok event_type special = true ->
  double_to_int
    (adjusted_product h
       (fst (i2c_sleep_event (deferred_sleep_enabled w) event_type special))
       (tsd w))
  = Returns adjusted ->
  tuned_sleep_with_trace now (Some h) event_type special w =
  defer_or_sleep now (dref h) d
    (snd (i2c_sleep_event (deferred_sleep_enabled w) event_type special))
    adjusted
    (record_sleep_event event_type
       (set_tsd
          (if dynamic_sleep_enabled (tsd w)
           then dsa_update_adjustment_factor h
                  (fst (i2c_sleep_event (deferred_sleep_enabled w)
                                        event_type special))
                  (tsd w)
           else tsd w)
          w)).
Proof.
  intros Hd Hm Hok Hadj.
  rewrite (tuned_sleep_unfold _ _ _ _ _ _ Hd Hok), Hm. cbv zeta.
  rewrite adjusted_sleep_time_product, Hadj. reflexivity.
Qed.


(** C10.  The deferred-sleep flag is initially off.  A call that returns
    for an event type that is not deferrable, or while deferred sleep is
    disabled, leaves every display reference as it was and has slept for
    the adjusted delay; only a call for a deferrable event type made while
    deferred sleep is enabled can change [next_i2c_io_after], and it does
    not sleep.  On an I2C display such a non-deferred call does return
    whenever the adjusted delay is defined. *)
Theorem tuned_sleep_defers_only_when_enabled
    (now : Z) (h : Display_Handle) (event_type : Sleep_Event_Type)
    (special : Z) (w : World) :
  deferred_sleep_enabled_initially = false
  /\ (forall w',
         tuned_sleep_with_trace now (Some h) event_type special w = Returns w' ->
         if deferrable_event event_type && deferred_sleep_enabled w
         then slept_millis w' = slept_millis w
         else display_refs w' = display_refs w
              /\ exists adjusted,
                   double_to_int
                     (adjusted_product h
                        (fst (i2c_sleep_event (deferred_sleep_enabled w)
                                              event_type special))
                        (tsd w))
                   = Returns adjusted
                   /\ slept_millis w' = slept_millis w ++ [adjusted])
  /\ (forall d adjusted,
         deferrable_event event_type && deferred_sleep_enabled w = false ->
         display_refs w !! dref h = Some d ->
         io_mode d = DDCA_IO_I2C ->
         special_sleep_time_ok event_type special = true ->
         double_to_int
           (adjusted_product h
              (fst (i2c_sleep_event (deferred_sleep_enabled w) event_type special))
              (tsd w))
         = Returns adjusted ->
         exists w',
           tuned_sleep_with_trace now (Some h) event_type special w = Returns w'
           /\ display_refs w' = display_refs w
           /\ slept_millis w' = slept_millis w ++ [adjusted]).
Proof.
  split; [reflexivity|]. split.
  - intros w' H.
    apply tuned_sleep_store in H as (d & adjusted & Hd & Hadj & H).
    rewrite i2c_sleep_event_deferrable in H.
    rewrite andb_comm.
    destruct (deferred_sleep_enabled w && deferrable_event event_type).
    + now destruct H as (_ & -> & _).
    + destruct H as (Hs & Hr). split; [assumption|]. eauto.
  - intros d adjusted Hoff Hd Hm Hok Hadj.
    rewrite (tuned_sleep_i2c_returns now h event_type special w d adjusted
               Hd Hm Hok Hadj).
    rewrite i2c_sleep_event_deferrable, andb_comm, Hoff.
    rewrite defer_or_sleep_not_deferrable.
    eexists. split; [reflexivity|]. split; reflexivity.
Qed.

(** *** Paying a deferred sleep *)

Lemma to_int_small (z : Z) : - 2 ^ 31 <= z < 2 ^ 31 -> to_int z = z.
Proof. intros H. unfold to_int. rewrite Z.mod_small; lia. Qed.


(** *** The adjusted delay *)

(** [(int) x] discards the fractional part: for a finite [x] of magnitude
    [m * 2^e] the result has the sign of [x] and the greatest integer
    magnitude not above that of [x]. *)
Lemma double_to_int_truncates (s : bool) (m : positive) (e v : Z) :
  double_to_int (S754_finite s m e) = Returns v ->
  v = cond_Zopp s (Z.abs v)
  /\ if 0 <=? e
     then Z.abs v = Z.pos m * 2 ^ e
     else Z.abs v * 2 ^ (- e) <= Z.pos m < (Z.abs v + 1) * 2 ^ (- e).
Proof.
  simpl. destruct (in_int _); [|discriminate]. intros [= <-].
  assert (Hnn : 0 <= Z.shiftl (Z.pos m) e) by (apply Z.shiftl_nonneg; lia).
  assert (Habs : Z.abs (cond_Zopp s (Z.shiftl (Z.pos m) e)) = Z.shiftl (Z.pos m) e).
  { destruct s; simpl; lia. }
  rewrite Habs. split; [reflexivity|].
  destruct (Z.leb_spec 0 e) as [He|He].
  - now rewrite Z.shiftl_mul_pow2.
  - rewrite Z.shiftl_div_pow2 by lia.
    assert (Hp : 0 < 2 ^ (- e)) by (apply Z.pow_pos_nonneg; lia).
    pose proof (Z.div_mod (Z.pos m) (2 ^ (- e))) as Hdm.
    pose proof (Z.mod_pos_bound (Z.pos m) (2 ^ (- e)) Hp) as Hmb.
    nia.
Qed.


(** ** Further properties of the two files *)

(** *** The deferred-sleep switch *)

(** X1. [enable_deferred_sleep] returns the setting that
    [is_deferred_sleep_enabled] reported before the call, the new setting
    is the one reported after it, and handing the returned value back to
    [enable_deferred_sleep] restores the world exactly. *)
Theorem enable_deferred_sleep_save_restore (onoff : bool) (w : World) :
  fst (enable_deferred_sleep onoff w) = is_deferred_sleep_enabled w
  /\ is_deferred_sleep_enabled (snd (enable_deferred_sleep onoff w)) = onoff
  /\ snd (enable_deferred_sleep (fst (enable_deferred_sleep onoff w))
                                (snd (enable_deferred_sleep onoff w)))
     = w.
Proof. destruct w. repeat split. Qed.

(** *** When [tuned_sleep_with_trace] returns, and what it records *)

(** X2. The call returns exactly when the handle is not null, the special
    time fits the event type, the handle's display reference is live and
    uses I2C, the floating-point product converts to an [int], and, if the
    sleep is deferred, the nanosecond product fits an [int] too. *)
Theorem tuned_sleep_returns_iff
    (now : Z) (dh : option Display_Handle) (event_type : Sleep_Event_Type)
    (special : Z) (w : World) :
  (exists w', tuned_sleep_with_trace now dh event_type special w = Returns w')
  <->
  exists h d adjusted,
    dh = Some h
    /\ special_sleep_time_ok event_type special = true
    /\ display_refs w !! dref h = Some d
    /\ io_mode d = DDCA_IO_I2C
    /\ double_to_int
         (adjusted_product h
            (fst (i2c_sleep_event (deferred_sleep_enabled w) event_type special))
            (tsd w))
       = Returns adjusted
    /\ (snd (i2c_sleep_event (deferred_sleep_enabled w) event_type special) = true ->
        in_int (1000 * 1000 * adjusted) = true).
Proof.
  split.
  - intros [w' H].
    apply tuned_sleep_Returns_inv in H
      as (h & d & adjusted & -> & Hok & Hd & Hm & Hadj & H).
    exists h, d, adjusted. repeat split; try assumption.
    intros Hdef. rewrite Hdef, defer_or_sleep_deferrable in H.
    destruct (in_int _); [reflexivity | discriminate].
  - intros (h & d & adjusted & -> & Hok & Hd & Hm & Hadj & Hfit).
    rewrite (tuned_sleep_i2c_returns now h event_type special w d adjusted
               Hd Hm Hok Hadj).
    destruct (snd _).
    + rewrite defer_or_sleep_deferrable, Hfit by reflexivity. eauto.
    + rewrite defer_or_sleep_not_deferrable. eauto.
Qed.

Lemma defer_or_sleep_frame (now : Z) (p : nat) (d : Display_Ref)
    (deferrable : bool) (adjusted : Z) (w w' : World) :
  defer_or_sleep now p d deferrable adjusted w = Returns w' ->
  deferred_sleep_enabled w' = deferred_sleep_enabled w
  /\ tsd w' = tsd w
  /\ sleep_events w' = sleep_events w.
Proof.
  destruct deferrable.
  - rewrite defer_or_sleep_deferrable.
    destruct (in_int _); [|discriminate].
    destruct (_ <? _); intros [= <-]; repeat split.
  - rewrite defer_or_sleep_not_deferrable. intros [= <-]. repeat split.
Qed.

(** X3. Every call that returns, deferred or not, has recorded its event
    type exactly once, has left the deferred-sleep flag as it was, and has
    changed the thread's sleep data only through the estimator, which it
    consults only when dynamic sleep is enabled for the thread. *)
Theorem tuned_sleep_records_event
    (now : Z) (h : Display_Handle) (event_type : Sleep_Event_Type)
    (special : Z) (w w' : World) :
  tuned_sleep_with_trace now (Some h) event_type special w = Returns w' ->
  sleep_events w' = sleep_events w ++ [event_type]
  /\ deferred_sleep_enabled w' = deferred_sleep_enabled w
  /\ tsd w' =
     if dynamic_sleep_enabled (tsd w)
     then dsa_update_adjustment_factor h
            (fst (i2c_sleep_event (deferred_sleep_enabled w) event_type special))
            (tsd w)
     else tsd w.
Proof.
  intros H.
  apply tuned_sleep_Returns_inv in H
    as (h' & d & adjusted & [= <-] & _ & _ & _ & _ & H).
  apply defer_or_sleep_frame in H as (Hflag & Htsd & Hev).
  rewrite Hflag, Htsd, Hev. repeat split.
Qed.

(** *** [check_deferred_sleep] *)

(** X4. [check_deferred_sleep] only sleeps: a call that returns has left
    every display reference, and so every [next_i2c_io_after], as it was,
    has not touched the flag, the thread's sleep data or the record of
    sleep events, and has slept at most once. *)
Theorem check_deferred_sleep_only_sleeps
    (now : Z) (dh : option Display_Handle) (w w' : World) :
  check_deferred_sleep now dh w = Returns w' ->
  display_refs w' = display_refs w
  /\ deferred_sleep_enabled w' = deferred_sleep_enabled w
  /\ tsd w' = tsd w
  /\ sleep_events w' = sleep_events w
  /\ (slept_millis w' = slept_millis w
      \/ exists millis, slept_millis w' = slept_millis w ++ [millis]).
Proof.
  unfold check_deferred_sleep. destruct dh as [h|]; [|discriminate]. simpl.
  destruct (display_refs w !! dref h) as [d|]; [|discriminate]. simpl.
  destruct (_ <? _); intros [= <-]; repeat split; simpl; eauto.
Qed.

(** *** Deferring and paying *)

(** The world after a call that defers. *)
Lemma tuned_sleep_deferred (now : Z) (h : Display_Handle)
    (event_type : Sleep_Event_Type) (special : Z) (w : World) (d : Display_Ref)
    (adjusted : Z) :
  display_refs w !! dref h = Some d ->
  io_mode d = DDCA_IO_I2C ->
  special_sleep_time_ok event_type special = true ->
  deferred_sleep_enabled w = true ->
  deferrable_event event_type = true ->
  double_to_int
    (adjusted_product h (fst (i2c_sleep_event true event_type special)) (tsd w))
  = Returns adjusted ->
  in_int (1000 * 1000 * adjusted) = true ->
  exists w',
    tuned_sleep_with_trace now (Some h) event_type special w = Returns w'
    /\ display_refs w' =
       <[dref h := {| io_mode := io_mode d;
                      next_i2c_io_after :=
                        Z.max (next_i2c_io_after d)
                              (to_uint64 (now + 1000 * 1000 * adjusted)) |}]>
         (display_refs w)
    /\ deferred_sleep_enabled w' = true
    /\ slept_millis w' = slept_millis w
    /\ tsd w' =
       if dynamic_sleep_enabled (tsd w)
       then dsa_update_adjustment_factor h
              (fst (i2c_sleep_event true event_type special)) (tsd w)
       else tsd w.
Proof.
  intros Hd Hm Hok Hen Hev Hadj Hint.
  pose proof (tuned_sleep_i2c_returns now h event_type special w d adjusted
                Hd Hm Hok) as Hrun.
  rewrite Hen in Hrun. specialize (Hrun Hadj).
  rewrite i2c_sleep_event_deferrable, Hev in Hrun.
  change (true && true) with true in Hrun.
  rewrite defer_or_sleep_deferrable, Hint in Hrun.
  eexists. split; [exact Hrun|].
  destruct (Z.ltb_spec (next_i2c_io_after d)
              (to_uint64 (now + 1000 * 1000 * adjusted))) as [Hlt|Hge]; simpl.
  - rewrite Z.max_r by lia. repeat split; assumption.
  - rewrite Z.max_l by lia. split; [|repeat split; assumption].
    symmetry. apply insert_id. rewrite Hd. now destruct d.
Qed.

Lemma check_deferred_sleep_unfold (now : Z) (h : Display_Handle) (w : World)
    (d : Display_Ref) :
  display_refs w !! dref h = Some d ->
  check_deferred_sleep now (Some h) w =
  if now <? next_i2c_io_after d
  then Returns
         (sleep_millis_with_trace
            (to_int (to_uint64 (next_i2c_io_after d - now) / (1000 * 1000))) w)
  else Returns w.
Proof.
  intros Hd. unfold check_deferred_sleep. simpl. rewrite Hd. simpl.
  destruct (_ <? _); reflexivity.
Qed.

(** X5. The elapsed time is subtracted from a deferred sleep.  A deferrable
    event at clock [now], with no later deadline pending, followed by
    [check_deferred_sleep] at clock [now2]: if the adjusted delay has
    already elapsed nothing is slept, otherwise the sleep is the rest of
    the delay, in whole milliseconds. *)
Theorem deferred_sleep_subtracts_elapsed
    (now now2 : Z) (h : Display_Handle) (event_type : Sleep_Event_Type)
    (special : Z) (w : World) (d : Display_Ref) (adjusted : Z) :
  display_refs w !! dref h = Some d ->
  io_mode d = DDCA_IO_I2C ->
  special_sleep_time_ok event_type special = true ->
  deferred_sleep_enabled w = true ->
  deferrable_event event_type = true ->
  double_to_int
    (adjusted_product h (fst (i2c_sleep_event true event_type special)) (tsd w))
  = Returns adjusted ->
  0 <= adjusted <= 2147 ->
  0 <= next_i2c_io_after d <= now ->
  now <= now2 < 2 ^ 64 ->
  now + 1000 * 1000 * adjusted < 2 ^ 64 ->
  exists w',
    exec_all
      [ Call_tuned_sleep now (Some h) event_type special;
        Call_check_deferred_sleep now2 (Some h) ] w
    = Returns w'
    /\ slept_millis w' =
       slept_millis w ++
       if now2 - now <? 1000 * 1000 * adjusted
       then [(1000 * 1000 * adjusted - (now2 - now)) / (1000 * 1000)]
       else [].
Proof.
  intros Hd Hm Hok Hen Hev Hadj Hrange Hnext Hnow2 Hfit.
  assert (Hint : in_int (1000 * 1000 * adjusted) = true).
  { unfold in_int, INT_MIN, INT_MAX. apply andb_true_iff.
    rewrite !Z.leb_le. lia. }
  destruct (tuned_sleep_deferred now h event_type special w d adjusted
              Hd Hm Hok Hen Hev Hadj Hint)
    as (w1 & Hrun & Hrefs & _ & Hslept & _).
  rewrite to_uint64_small in Hrefs by lia.
  rewrite Z.max_r in Hrefs by lia.
  unfold exec_all, exec. rewrite Hrun. simpl.
  rewrite (check_deferred_sleep_unfold now2 h w1
             {| io_mode := io_mode d;
                next_i2c_io_after := now + 1000 * 1000 * adjusted |})
    by (rewrite Hrefs; apply lookup_insert_eq).
  simpl next_i2c_io_after.
  destruct (Z.ltb_spec now2 (now + 1000 * 1000 * adjusted)) as [Hlt|Hge].
  - destruct (Z.ltb_spec (now2 - now) (1000 * 1000 * adjusted)); [|lia].
    eexists. split; [reflexivity|]. simpl. rewrite Hslept.
    rewrite to_uint64_small by lia.
    replace (now + 1000 * 1000 * adjusted - now2)
      with (1000 * 1000 * adjusted - (now2 - now)) by lia.
    rewrite to_int_small; [reflexivity|].
    split.
    + assert (0 <= (1000 * 1000 * adjusted - (now2 - now)) / (1000 * 1000))
        by (apply Z.div_pos; lia). lia.
    + apply Z.div_lt_upper_bound; lia.
  - destruct (Z.ltb_spec (now2 - now) (1000 * 1000 * adjusted)); [lia|].
    eexists. split; [reflexivity|]. rewrite Hslept.
    symmetry. apply app_nil_r.
Qed.

(** X6. A deferred delay is limited by its nanosecond product.  For a
    deferrable event on an I2C display, an adjusted delay beyond 2147 ms
    makes the [int] product [(1000 * 1000) * adjusted] overflow, which is
    undefined, when deferred sleep is enabled; with deferred sleep
    disabled the same call returns and sleeps for that delay. *)
Theorem tuned_sleep_deferred_delay_limit
    (now : Z) (h : Display_Handle) (event_type : Sleep_Event_Type)
    (special : Z) (w : World) (d : Display_Ref) (adjusted : Z) :
  display_refs w !! dref h = Some d ->
  io_mode d = DDCA_IO_I2C ->
  special_sleep_time_ok event_type special = true ->
  deferrable_event event_type = true ->
  double_to_int
    (adjusted_product h
       (fst (i2c_sleep_event (deferred_sleep_enabled w) event_type special))
       (tsd w))
  = Returns adjusted ->
  adjusted < -2147 \/ 2147 < adjusted ->
  if deferred_sleep_enabled w
  then tuned_sleep_with_trace now (Some h) event_type special w
       = Aborts Undefined_Behavior
  else exists w',
         tuned_sleep_with_trace now (Some h) event_type special w = Returns w'
         /\ slept_millis w' = slept_millis w ++ [adjusted].
Proof.
  intros Hd Hm Hok Hev Hadj Hbig.
  rewrite (tuned_sleep_i2c_returns now h event_type special w d adjusted
             Hd Hm Hok Hadj).
  rewrite i2c_sleep_event_deferrable, Hev.
  destruct (deferred_sleep_enabled w); simpl andb.
  - rewrite defer_or_sleep_deferrable.
    assert (Hint : in_int (1000 * 1000 * adjusted) = false).
    { unfold in_int, INT_MIN, INT_MAX. apply andb_false_iff.
      rewrite !Z.leb_gt. lia. }
    now rewrite Hint.
  - rewrite defer_or_sleep_not_deferrable. eexists. split; reflexivity.
Qed.



(** *** Dispatching after a selection *)

(** X7. Whatever descriptor was designated before, after
    [i2c_set_io_strategy] the two entry points dispatch to the ioctl
    transport: a call that returns hands back what [i2c_ioctl_writer] or
    [i2c_ioctl_reader] produced, and a call that fails does so because
    that function's status was positive. *)
Theorem invoke_after_set_io_strategy
    (id : I2C_IO_Strategy_Id) (cur : I2C_IO_Strategy) (fd : Z)
    (slave_address : Byte.byte) (read_bytewise : bool) (bytect : Z)
    (bytes readbuf : list Byte.byte) (bus : Bus) :
  match invoke_i2c_writer (snd (i2c_set_io_strategy id cur))
          fd slave_address bytect bytes bus with
  | Returns r => i2c_ioctl_writer fd slave_address bytect bytes bus = r
  | Aborts _ => 0 < fst (i2c_ioctl_writer fd slave_address bytect bytes bus)
  end
  /\
  match invoke_i2c_reader (snd (i2c_set_io_strategy id cur))
          fd slave_address read_bytewise bytect readbuf bus with
  | Returns r =>
      i2c_ioctl_reader fd slave_address read_bytewise bytect readbuf bus = r
  | Aborts _ =>
      0 < fst (fst (i2c_ioctl_reader fd slave_address read_bytewise bytect
                      readbuf bus))
  end.
Proof.
  destruct id. unfold invoke_i2c_writer, invoke_i2c_reader. simpl. split.
  - destruct (i2c_ioctl_writer fd slave_address bytect bytes bus) as [rc bus'].
    destruct (Z.leb_spec rc 0); simpl; auto.
  - destruct (i2c_ioctl_reader fd slave_address read_bytewise bytect readbuf bus)
      as [[rc readbuf'] bus'].
    destruct (Z.leb_spec rc 0); simpl; auto.
Qed.

(** ** ddc_display_ref_reports.c *)

(** *** Formatting *)

Lemma substring_all (s : string) (n : nat) :
  (String.length s <= n)%nat -> String.substring 0 n s = s.
Proof.
  revert n. induction s as [|a s IH]; intros n Hn.
  - now destruct n.
  - destruct n as [|n]; simpl in *; [lia|]. rewrite IH by lia. reflexivity.
Qed.

Lemma string_length_app (s t : string) :
  String.length (s +:+ t) = (String.length s + String.length t)%nat.
Proof. induction s as [|a s IH]; simpl; [reflexivity | now rewrite IH]. Qed.

Lemma fmt_d_byte_length (b : Byte.byte) : (String.length (fmt_d_byte b) <= 3)%nat.
Proof.
  apply Nat.leb_le. destruct b; vm_compute; reflexivity.
Qed.

Lemma fmt_d_byte_dotless (b : Byte.byte) : dotless (fmt_d_byte b) = true.
Proof. destruct b; vm_compute; reflexivity. Qed.

Lemma fmt_d_byte_inj (a b : Byte.byte) : fmt_d_byte a = fmt_d_byte b -> a = b.
Proof.
  unfold fmt_d_byte. intros H. apply (inj pretty) in H.
  pose proof (Byte.of_to_N a) as Ha. rewrite H, Byte.of_to_N in Ha.
  congruence.
Qed.

(** Two texts that are split by their first full stop. *)
Lemma dotless_split (s1 s2 t1 t2 : string) :
  dotless s1 = true -> dotless s2 = true ->
  s1 +:+ "." +:+ t1 = s2 +:+ "." +:+ t2 ->
  s1 = s2 /\ t1 = t2.
Proof.
  change ("." +:+ t1) with (String (Ascii.ascii_of_nat 46) t1).
  change ("." +:+ t2) with (String (Ascii.ascii_of_nat 46) t2).
  revert s2. induction s1 as [|a s1 IH]; intros [|b s2] H1 H2 H; cbn in *.
  - injection H as H. subst. auto.
  - injection H as Ha _. subst b. apply andb_true_iff in H2 as [H2 _].
    vm_compute in H2. discriminate.
  - injection H as Ha _. subst a. apply andb_true_iff in H1 as [H1 _].
    vm_compute in H1. discriminate.
  - injection H as Ha H. subst b.
    apply andb_true_iff in H1 as [_ H1]. apply andb_true_iff in H2 as [_ H2].
    destruct (IH s2 H1 H2 H) as [-> ->]. auto.
Qed.

Lemma version_text_length (a b : Byte.byte) :
  (String.length (fmt_d_byte a +:+ "." +:+ fmt_d_byte b) <= 7)%nat.
Proof.
  rewrite !string_length_app. simpl.
  pose proof (fmt_d_byte_length a). pose proof (fmt_d_byte_length b). lia.
Qed.

Lemma fmt_d_byte_starts_with_digit (a : Byte.byte) (t : string) :
  fmt_d_byte a +:+ t <> "Unspecified"%string
  /\ fmt_d_byte a +:+ t <> "DDC communication failed"%string.
Proof.
  split; intros H; destruct a; vm_compute in H; discriminate.
Qed.

Lemma version_text_not_an_error (a b : Byte.byte) :
  fmt_d_byte a +:+ "." +:+ fmt_d_byte b <> "Unspecified"%string
  /\ fmt_d_byte a +:+ "." +:+ fmt_d_byte b <> "DDC communication failed"%string.
Proof. apply fmt_d_byte_starts_with_digit. Qed.

(** *** The firmware version and the controller manufacturer *)

Lemma get_firmware_version_string_t_ok (c : Collaborators)
    (dh : option Display_Handle) (v : Nontable_Vcp_Value) :
  status_of (ddc_get_vcp_value c dh Byte.xc9) = 0 ->
  valrec (ddc_get_vcp_value c dh Byte.xc9) = Some v ->
  get_firmware_version_string_t c dh
  = Returns (fmt_d_byte (sh v) +:+ "." +:+ fmt_d_byte (sl v), []).
Proof.
  intros Hst Hv. unfold get_firmware_version_string_t.
  rewrite Hst, Hv. simpl. unfold snprintf.
  rewrite substring_all; [reflexivity|].
  pose proof (version_text_length (sh v) (sl v)). simpl in *. lia.
Qed.

Lemma get_firmware_version_string_t_failed (c : Collaborators)
    (dh : option Display_Handle) (text : string) (written : list Report_Event) :
  status_of (ddc_get_vcp_value c dh Byte.xc9) <> 0 ->
  get_firmware_version_string_t c dh = Returns (text, written) ->
  text = "Unspecified"%string \/ text = "DDC communication failed"%string.
Proof.
  intros Hst. unfold get_firmware_version_string_t.
  destruct (Z.eqb_spec (status_of (ddc_get_vcp_value c dh Byte.xc9)) 0);
    [contradiction|]. simpl.
  destruct (ddc_excp _); [|discriminate]. simpl.
  destruct (_ && _); intros [= <- _]; auto.
Qed.

(** X10. The 40-byte buffer of [get_firmware_version_string_t] always
    holds the version in full: when feature xC9 is read, the result is the
    decimal [sh], a full stop and the decimal [sl], at most 7 characters,
    and nothing is written. *)
Theorem firmware_version_string_in_full (c : Collaborators)
    (dh : option Display_Handle) (v : Nontable_Vcp_Value) :
  status_of (ddc_get_vcp_value c dh Byte.xc9) = 0 ->
  valrec (ddc_get_vcp_value c dh Byte.xc9) = Some v ->
  get_firmware_version_string_t c dh
  = Returns (fmt_d_byte (sh v) +:+ "." +:+ fmt_d_byte (sl v), [])
  /\ (String.length (fmt_d_byte (sh v) +:+ "." +:+ fmt_d_byte (sl v)) <= 7)%nat.
Proof.
  intros Hst Hv. split.
  - now apply get_firmware_version_string_t_ok.
  - apply version_text_length.
Qed.

(** X11. The text of [get_firmware_version_string_t] tells its cases
    apart.  If one call read feature xC9 and another call returns the same
    text, the other call read the feature too, and read the same [sh] and
    [sl]: a version text is never one of the two failure texts, and it
    determines both bytes. *)
Theorem firmware_version_string_unambiguous (c c' : Collaborators)
    (dh dh' : option Display_Handle) (v : Nontable_Vcp_Value) (text : string)
    (written written' : list Report_Event) :
  status_of (ddc_get_vcp_value c dh Byte.xc9) = 0 ->
  valrec (ddc_get_vcp_value c dh Byte.xc9) = Some v ->
  get_firmware_version_string_t c dh = Returns (text, written) ->
  get_firmware_version_string_t c' dh' = Returns (text, written') ->
  status_of (ddc_get_vcp_value c' dh' Byte.xc9) = 0
  /\ valrec (ddc_get_vcp_value c' dh' Byte.xc9) = Some v.
Proof.
  intros Hst Hv Hrun Hrun'.
  rewrite (get_firmware_version_string_t_ok c dh v Hst Hv) in Hrun.
  injection Hrun as <- <-.
  destruct (Z.eq_dec (status_of (ddc_get_vcp_value c' dh' Byte.xc9)) 0)
    as [Hst'|Hst'].
  - split; [assumption|].
    destruct (valrec (ddc_get_vcp_value c' dh' Byte.xc9)) as [v'|] eqn:Hv'.
    + rewrite (get_firmware_version_string_t_ok c' dh' v' Hst' Hv') in Hrun'.
      injection Hrun' as Heq.
      apply dotless_split in Heq as [Hsh Hsl];
        try apply fmt_d_byte_dotless.
      apply fmt_d_byte_inj in Hsh, Hsl. destruct v, v'; simpl in *. congruence.
    + unfold get_firmware_version_string_t in Hrun'.
      rewrite Hst', Hv' in Hrun'. discriminate.
  - exfalso.
    destruct (get_firmware_version_string_t_failed c' dh' _ _ Hst' Hrun')
      as [H|H]; now apply (version_text_not_an_error (sh v) (sl v)) in H.
Qed.

Lemma get_controller_mfg_string_t_ok (c : Collaborators)
    (dh : option Display_Handle) (v : Nontable_Vcp_Value) :
  status_of (ddc_get_vcp_value c dh Byte.xc8) = 0 ->
  valrec (ddc_get_vcp_value c dh Byte.xc8) = Some v ->
  get_controller_mfg_string_t c dh
  = Returns (match sl_value_table_lookup c (sl v) with
             | Some mfg_name => mfg_name
             | None => "Unrecognized manufacturer code 0x" +:+ fmt_02x (sl v)
             end, []).
Proof.
  intros Hst Hv. unfold get_controller_mfg_string_t.
  rewrite Hst, Hv. simpl.
  destruct (sl_value_table_lookup c (sl v)); [reflexivity|].
  unfold snprintf. rewrite substring_all; [reflexivity|].
  rewrite string_length_app. simpl. lia.
Qed.

Lemma fmt_02x_inj (a b : Byte.byte) : fmt_02x a = fmt_02x b -> a = b.
Proof.
  assert (Hget : forall i j : nat,
             (i < 16)%nat -> (j < 16)%nat ->
             default Ascii.zero (String.get i "0123456789abcdef")
             = default Ascii.zero (String.get j "0123456789abcdef") ->
             i = j).
  { intros i j Hi Hj.
    do 16 (destruct i as [|i];
           [do 16 (destruct j as [|j];
                   [vm_compute; intros H;
                    first [reflexivity | discriminate H]|]); lia|]).
    lia. }
  assert (Hdigit : forall m n : N,
             (m < 16)%N -> (n < 16)%N -> hex_digit m = hex_digit n -> m = n).
  { intros m n Hm Hn H. apply N2Nat.inj. apply Hget; [lia | lia | exact H]. }
  unfold fmt_02x. intros [= Hh Hl].
  pose proof (Byte.to_N_bounded a) as Ha. pose proof (Byte.to_N_bounded b) as Hb.
  assert (Hdiv : forall x : N, (x <= 255)%N -> (x / 16 < 16)%N).
  { intros x Hx. apply N.Div0.div_lt_upper_bound. lia. }
  apply Hdigit in Hh; [|now apply Hdiv..].
  apply Hdigit in Hl; [|apply N.mod_lt; lia..].
  assert (Heq : Byte.to_N a = Byte.to_N b).
  { rewrite (N.div_mod (Byte.to_N a) 16), (N.div_mod (Byte.to_N b) 16) by lia.
    congruence. }
  pose proof (Byte.of_to_N a) as Hoa. rewrite Heq, Byte.of_to_N in Hoa.
  congruence.
Qed.

(** X12. When feature xC8 is read, [get_controller_mfg_string_t] returns
    the name that the table of controller types has for [sl], as the table
    has it; for a code that the table does not have, it returns the text
    that ends in the code as two hexadecimal digits, in full (the 100-byte
    buffer never cuts it) and different for different codes. *)
Theorem controller_mfg_string_in_full (c : Collaborators)
    (dh : option Display_Handle) (v : Nontable_Vcp_Value) :
  status_of (ddc_get_vcp_value c dh Byte.xc8) = 0 ->
  valrec (ddc_get_vcp_value c dh Byte.xc8) = Some v ->
  exists text,
    get_controller_mfg_string_t c dh = Returns (text, [])
    /\ (forall mfg_name,
           sl_value_table_lookup c (sl v) = Some mfg_name -> text = mfg_name)
    /\ (sl_value_table_lookup c (sl v) = None ->
        text = "Unrecognized manufacturer code 0x" +:+ fmt_02x (sl v)
        /\ forall (c' : Collaborators) (dh' : option Display_Handle)
                  (v' : Nontable_Vcp_Value),
             status_of (ddc_get_vcp_value c' dh' Byte.xc8) = 0 ->
             valrec (ddc_get_vcp_value c' dh' Byte.xc8) = Some v' ->
             sl_value_table_lookup c' (sl v') = None ->
             get_controller_mfg_string_t c' dh' = Returns (text, []) ->
             sl v' = sl v).
Proof.
  intros Hst Hv. eexists. split.
  - exact (get_controller_mfg_string_t_ok c dh v Hst Hv).
  - split.
    + intros mfg_name Hname. now rewrite Hname.
    + intros Hnone. rewrite Hnone. split; [reflexivity|].
      intros c' dh' v' Hst' Hv' Hnone' Hrun'.
      rewrite (get_controller_mfg_string_t_ok c' dh' v' Hst' Hv'), Hnone' in Hrun'.
      injection Hrun' as Hhigh Hlow.
      apply fmt_02x_inj. unfold fmt_02x. now rewrite Hhigh, Hlow.
Qed.

(** X13. The two functions name a failure alike.  When reading the
    feature fails with the same error, both return the same text:
    "Unspecified" if the status is [DDCRC_REPORTED_UNSUPPORTED] or
    [DDCRC_DETERMINED_UNSUPPORTED], and then neither writes anything,
    whatever the tracing and error-reporting settings; otherwise
    "DDC communication failed". *)
Theorem vcp_failure_texts_agree (c : Collaborators)
    (dh dh' : option Display_Handle) (e : Error_Info) :
  ddc_excp (ddc_get_vcp_value c dh Byte.xc9) = Some e ->
  ddc_excp (ddc_get_vcp_value c dh' Byte.xc8) = Some e ->
  status_code e <> 0 ->
  exists text written written',
    get_firmware_version_string_t c dh = Returns (text, written)
    /\ get_controller_mfg_string_t c dh' = Returns (text, written')
    /\ if (status_code e =? DDCRC_REPORTED_UNSUPPORTED c)
          || (status_code e =? DDCRC_DETERMINED_UNSUPPORTED c)
       then text = "Unspecified"%string /\ written = [] /\ written' = []
       else text = "DDC communication failed"%string.
Proof.
  intros He He' Hst.
  unfold get_firmware_version_string_t, get_controller_mfg_string_t, status_of.
  rewrite He, He'. simpl.
  destruct (Z.eqb_spec (status_code e) 0); [contradiction|]. simpl.
  destruct (status_code e =? DDCRC_REPORTED_UNSUPPORTED c);
    destruct (status_code e =? DDCRC_DETERMINED_UNSUPPORTED c); simpl;
    do 3 eexists; repeat split.
Qed.

(** *** [ddc_report_displays] *)

Lemma int_add_Returns (a b x : Z) : int_add a b = Returns x -> x = a + b.
Proof. unfold int_add. destruct (in_int _); congruence. Qed.

(** One turn of the loop. *)
Lemma report_displays_from_cons (c : Collaborators) (include_invalid : bool)
    (depth : Z) (dref : option Display_Ref_Full)
    (displays : list (option Display_Ref_Full)) (ndx display_ct total : Z)
    (written : list Report_Event) :
  report_displays_from c include_invalid depth (dref :: displays) ndx display_ct
  = Returns (total, written) ->
  exists r ndx' written1 written2,
    dref = Some r
    /\ written = written1 ++ written2
    /\ (if is_reported include_invalid dref
        then exists report,
               ddc_report_display_by_dref c dref depth = Returns report
               /\ written1 = report ++ [Rpt 0 EmptyString]
               /\ report_displays_from c include_invalid depth displays ndx'
                    (display_ct + 1)
                  = Returns (total, written2)
        else written1 = []
             /\ report_displays_from c include_invalid depth displays ndx'
                  display_ct
                = Returns (total, written2)).
Proof.
  simpl. intros H.
  apply bind_Returns_inv in H as (r & Hr & H).
  destruct dref as [r'|]; [|discriminate]. injection Hr as ->.
  apply bind_Returns_inv in H as ([] & _ & H).
  apply bind_Returns_inv in H as ([ct' written1] & H1 & H).
  apply bind_Returns_inv in H as (ndx' & _ & H).
  apply bind_Returns_inv in H as ([total' written2] & H2 & [= <- <-]).
  exists r, ndx', written1, written2. split; [reflexivity|].
  split; [reflexivity|]. simpl.
  destruct ((0 <? dispno r) || include_invalid).
  - apply bind_Returns_inv in H1 as (x & Hx & H1).
    apply int_add_Returns in Hx as ->.
    apply bind_Returns_inv in H1 as (report & Hreport & [= <- <-]).
    exists report. auto.
  - injection H1 as <- <-. auto.
Qed.



Lemma report_displays_from_written (c : Collaborators) (include_invalid : bool)
    (depth : Z) (displays : list (option Display_Ref_Full))
    (ndx display_ct total : Z) (written : list Report_Event) :
  report_displays_from c include_invalid depth displays ndx display_ct
  = Returns (total, written) ->
  display_ct <= total
  /\ (total = display_ct -> written = [])
  /\ (display_ct < total -> last written = Some (Rpt 0 EmptyString)).
Proof.
  revert ndx display_ct written.
  induction displays as [|dref displays IH]; intros ndx display_ct written H.
  - injection H as <- <-. repeat split; [lia | lia].
  - apply report_displays_from_cons in H
      as (r & ndx' & written1 & written2 & -> & -> & H).
    destruct (is_reported include_invalid (Some r)).
    + destruct H as (report & _ & -> & H).
      apply IH in H as (Hle & Hnone & Hsome).
      split; [lia|]. split; [lia|]. intros _.
      rewrite last_app.
      destruct (Z.eq_dec total (display_ct + 1)) as [Heq|Hne].
      * rewrite (Hnone Heq). simpl. apply last_snoc.
      * rewrite Hsome by lia. reflexivity.
    + destruct H as (-> & H). simpl. now apply IH in H.
Qed.

(** X15. The text that no displays were found is written exactly when
    nothing was reported, and is then all that is written: the line
    itself, and at output level normal or above the two lines of advice.
    A report of at least one display ends with an empty line instead. *)
Theorem ddc_report_displays_none_found (c : Collaborators)
    (all_displays : list (option Display_Ref_Full))
    (include_invalid_displays : bool) (depth display_ct : Z)
    (written : list Report_Event) :
  ddc_report_displays c all_displays include_invalid_displays depth
  = Returns (display_ct, written) ->
  if display_ct =? 0 then
    written =
    Rpt depth ("No " +:+ (if include_invalid_displays
                          then EmptyString else "active "%string)
               +:+ "displays found.")
    :: if DDCA_OL_NORMAL c <=? get_output_level c then
         [Rpt depth "Is DDC/CI enabled in the monitor's on screen display?";
          Rpt depth ("Run " +:+ String (Ascii.ascii_of_nat 34) "ddcutil environment"
                     +:+ String (Ascii.ascii_of_nat 34)
                           " to check for system configuration problems.")]
       else []
  else last written = Some (Rpt 0 EmptyString).
Proof.
  unfold ddc_report_displays. intros H.
  apply bind_Returns_inv in H as ([ct written0] & H & [= <- <-]).
  apply report_displays_from_written in H as (Hle & Hnone & Hsome).
  destruct (Z.eqb_spec ct 0) as [->|Hne].
  - rewrite (Hnone eq_refl). simpl. now destruct include_invalid_displays.
  - rewrite app_nil_r. apply Hsome. lia.
Qed.

(** *** [ddc_report_display_by_dref] *)

(** What a returning report went through. *)
Lemma ddc_report_display_by_dref_inv (c : Collaborators) (r : Display_Ref_Full)
    (depth : Z) (written : list Report_Event) :
  ddc_report_display_by_dref c (Some r) depth = Returns written ->
  exists named d1 active rest,
    report_dispno (dispno r) depth (depth + 1) = (named, d1)
    /\ report_active_display c r d1 = Returns active
    /\ (if DDCA_OL_NORMAL c <=? get_output_level c then
          if negb (flag_set (flags r) (DREF_DDC_COMMUNICATION_WORKING c))
          then report_communication_failed c r d1 (get_output_level c)
          else report_communication_working c r d1 (get_output_level c)
        else Returns [])
       = Returns rest
    /\ written = named ++ active ++ rest.
Proof.
  unfold ddc_report_display_by_dref. intros H.
  apply bind_Returns_inv in H as ([] & _ & H).
  apply bind_Returns_inv in H as (d1 & Hd1 & H).
  apply int_add_Returns in Hd1 as ->. simpl in H.
  destruct (report_dispno (dispno r) depth (depth + 1)) as [named d1].
  apply bind_Returns_inv in H as (active & Hactive & H).
  apply bind_Returns_inv in H as ([] & _ & H).
  apply bind_Returns_inv in H as (rest & Hrest & [= <-]).
  exists named, d1, active, rest. auto.
Qed.

Lemma lines_quiet (l : list (Z * string)) :
  List.filter is_open_or_close (lines l) = [].
Proof. induction l as [|x l IH]; simpl; auto. Qed.

Lemma report_dispno_quiet (dispno depth d1 : Z) :
  List.filter is_open_or_close (fst (report_dispno dispno depth d1)) = [].
Proof. unfold report_dispno. repeat (destruct (_ =? _); [reflexivity|]). reflexivity. Qed.

Lemma report_active_display_quiet (c : Collaborators) (r : Display_Ref_Full)
    (d1 : Z) (active : list Report_Event) :
  report_active_display c r d1 = Returns active ->
  List.filter is_open_or_close active = [].
Proof.
  unfold report_active_display. destruct (io_mode (dref_core r)).
  - intros H. apply bind_Returns_inv in H as ([] & _ & [= <-]).
    apply lines_quiet.
  - discriminate.
  - destruct (USE_USB c); [|discriminate]. intros [= <-]. apply lines_quiet.
Qed.

Lemma report_busy_quiet (c : Collaborators) (r : Display_Ref_Full) (d1 : Z) :
  List.filter is_open_or_close (report_busy c r d1) = [].
Proof.
  unfold report_busy. simpl.
  destruct (collect_conflicting_drivers c (i2c_busno r) (-1)) as [[|? ?]|];
    simpl; try reflexivity; destruct (_ =? _); reflexivity.
Qed.

Lemma explain_i2c_failure_quiet (c : Collaborators) (r : Display_Ref_Full)
    (d1 : Z) (written : list Report_Event) (msg : option string) :
  explain_i2c_failure c r d1 = Returns (written, msg) ->
  List.filter is_open_or_close written = [].
Proof.
  unfold explain_i2c_failure. destruct (bool_decide _); [|now intros [= <- _]].
  destruct (detail r) as [curinfo|]; [|discriminate]. simpl.
  repeat (destruct (flag_set _ _); [now intros [= <- _]|]).
  destruct (is_embedded_parsed_edid _ _); [now intros [= <- _]|].
  destruct (_ =? _); intros [= <- _]; [apply report_busy_quiet | reflexivity].
Qed.

(** The lines of a failed communication: the heading, what the probing of
    a busy bus wrote, and the message if there is one. *)
Lemma report_communication_failed_inv (c : Collaborators) (r : Display_Ref_Full)
    (d1 output_level : Z) (written : list Report_Event) :
  report_communication_failed c r d1 output_level = Returns written ->
  exists between msg,
    written = Rpt d1 "DDC communication failed" :: between
              ++ match msg with
                 | Some text => [Rpt d1 text]
                 | None => []
                 end
    /\ List.filter is_open_or_close between = []
    /\ (DDCA_OL_VERBOSE c <= output_level -> is_Some msg).
Proof.
  unfold report_communication_failed. intros H.
  apply bind_Returns_inv in H as ([between msg] & H & [= <-]).
  exists between, msg. split; [reflexivity|].
  destruct (dispno r =? DISPNO_PHANTOM).
  - destruct (actual_display r); injection H as <- <-; split; eauto.
  - apply bind_Returns_inv in H as ([between0 msg0] & Hex & H).
    apply explain_i2c_failure_quiet in Hex.
    destruct (Z.leb_spec (DDCA_OL_VERBOSE c) output_level).
    + destruct msg0; injection H as <- <-; split; eauto.
    + injection H as <- <-. split; [assumption | lia].
Qed.

Lemma get_firmware_version_string_t_quiet (c : Collaborators)
    (dh : option Display_Handle) (text : string) (written : list Report_Event) :
  get_firmware_version_string_t c dh = Returns (text, written) ->
  List.filter is_open_or_close written = [].
Proof.
  unfold get_firmware_version_string_t. destruct (negb _).
  - destruct (ddc_excp _); [|discriminate]. simpl.
    destruct (_ && _); [|now intros [= _ <-]].
    destruct (reporting_errors c); now intros [= _ <-].
  - destruct (valrec _); [|discriminate]. now intros [= _ <-].
Qed.

Lemma get_controller_mfg_string_t_quiet (c : Collaborators)
    (dh : option Display_Handle) (text : string) (written : list Report_Event) :
  get_controller_mfg_string_t c dh = Returns (text, written) ->
  List.filter is_open_or_close written = [].
Proof.
  unfold get_controller_mfg_string_t. destruct (_ =? 0).
  - destruct (valrec _); [|discriminate]. simpl.
    destruct (sl_value_table_lookup _ _); now intros [= _ <-].
  - destruct (_ || _); [now intros [= _ <-]|].
    destruct (ddc_excp _); [|discriminate]. intros [= _ <-]. apply lines_quiet.
Qed.

Lemma report_quirk_quiet (c : Collaborators) (r : Display_Ref_Full) (d1 : Z) :
  List.filter is_open_or_close (report_quirk c r d1) = [].
Proof.
  unfold report_quirk. destruct (get_monitor_quirks _ _) as [quirk|]; [|reflexivity].
  destruct (quirk_type quirk); try reflexivity. now destruct (quirk_msg quirk).
Qed.

Lemma report_controller_opens (c : Collaborators) (r : Display_Ref_Full)
    (d1 : Z) (written : list Report_Event) :
  report_controller c r d1 = Returns written ->
  List.filter is_open_or_close written =
  if fst (ddc_open_display c r) =? 0
  then [Open_display 0 (snd (ddc_open_display c r));
        Close_display (snd (ddc_open_display c r))]
  else [Open_display (fst (ddc_open_display c r)) (snd (ddc_open_display c r))].
Proof.
  unfold report_controller. destruct (ddc_open_display c r) as [psc dh]. simpl.
  intros H. apply bind_Returns_inv in H as (opened & Hopened & [= <-]).
  rewrite List.filter_app.
  assert (Hnull : forall l : list Report_Event,
             l ++ List.filter is_open_or_close
                    (if bool_decide (io_mode (dref_core r) <> DDCA_IO_USB)
                     then [Rpt d1
                             ("Monitor returns DDC Null Response for unsupported features: "
                              +:+ sbool c
                                    (flag_set (flags r)
                                       (DREF_DDC_USES_NULL_RESPONSE_FOR_UNSUPPORTED c)))]
                     else [])
             = l).
  { intros l. destruct (bool_decide _); simpl; apply app_nil_r. }
  rewrite Hnull.
  destruct (Z.eqb_spec psc 0) as [->|Hne]; simpl in Hopened.
  - apply bind_Returns_inv in Hopened as ([mfg written1] & Hmfg & Hopened).
    apply bind_Returns_inv in Hopened as ([version written2] & Hfw & [= <-]).
    apply get_controller_mfg_string_t_quiet in Hmfg.
    apply get_firmware_version_string_t_quiet in Hfw.
    cbn [List.filter is_open_or_close].
    rewrite List.filter_app, Hmfg. cbn [List.filter is_open_or_close app].
    rewrite List.filter_app, Hfw. reflexivity.
  - injection Hopened as <-. reflexivity.
Qed.

(** X16. [ddc_report_display_by_dref] closes the display it opens.  In a
    report that returns, the function itself calls [ddc_open_display] at
    most once, only at output level verbose or above and only when DDC
    communication is marked as working; an opening that succeeds is
    followed by [ddc_close_display] of the handle it gave, and one that
    fails is not. *)
Theorem ddc_report_display_by_dref_closes_what_it_opens (c : Collaborators)
    (r : Display_Ref_Full) (depth : Z) (written : list Report_Event) :
  ddc_report_display_by_dref c (Some r) depth = Returns written ->
  (List.filter is_open_or_close written = []
   \/ List.filter is_open_or_close written =
      if fst (ddc_open_display c r) =? 0
      then [Open_display 0 (snd (ddc_open_display c r));
            Close_display (snd (ddc_open_display c r))]
      else [Open_display (fst (ddc_open_display c r))
                         (snd (ddc_open_display c r))])
  /\ (List.filter is_open_or_close written <> [] ->
      DDCA_OL_NORMAL c <= get_output_level c
      /\ DDCA_OL_VERBOSE c <= get_output_level c
      /\ flag_set (flags r) (DREF_DDC_COMMUNICATION_WORKING c) = true).
Proof.
  intros H.
  apply ddc_report_display_by_dref_inv in H
    as (named & d1 & active & rest & Hnamed & Hactive & Hrest & ->).
  rewrite !List.filter_app.
  pose proof (report_dispno_quiet (dispno r) depth (depth + 1)) as Hq.
  rewrite Hnamed in Hq. simpl in Hq. rewrite Hq.
  rewrite (report_active_display_quiet c r d1 active Hactive). simpl.
  destruct (Z.leb_spec (DDCA_OL_NORMAL c) (get_output_level c)) as [Hnormal|_];
    [|injection Hrest as <-; split; [now left | now intros []]].
  destruct (flag_set (flags r) (DREF_DDC_COMMUNICATION_WORKING c)); simpl in Hrest.
  - unfold report_communication_working in Hrest.
    destruct (get_vcp_version_by_dref c r) as [major minor].
    apply bind_Returns_inv in Hrest as (controller & Hcontroller & [= <-]).
    assert (Hfilter :
              List.filter is_open_or_close
                ((if (Byte.to_N major =? 0)%N
                  then Rpt d1 "VCP version:         Detection failed"
                  else Rpt d1 ("VCP version:         " +:+ fmt_d_byte major
                               +:+ "." +:+ fmt_d_byte minor))
                 :: controller ++ report_quirk c r d1)
              = List.filter is_open_or_close controller).
    { destruct (_ =? _)%N; cbn [List.filter is_open_or_close];
        now rewrite List.filter_app, report_quirk_quiet, app_nil_r. }
    rewrite Hfilter.
    destruct (Z.leb_spec (DDCA_OL_VERBOSE c) (get_output_level c)) as [Hverbose|_].
    + apply report_controller_opens in Hcontroller. rewrite Hcontroller.
      split; [now right | auto].
    + injection Hcontroller as <-. split; [now left | now intros []].
  - apply report_communication_failed_inv in Hrest
      as (between & msg & -> & Hbetween & _).
    cbn [List.filter is_open_or_close].
    rewrite List.filter_app, Hbetween.
    destruct msg; split; try (now left); now intros [].
Qed.

(** X17. At output level verbose or above, a display whose DDC
    communication is not working is never left without an explanation:
    the report has the line "DDC communication failed" and ends with a
    further line of text at the same depth. *)
Theorem communication_failure_explained_at_verbose (c : Collaborators)
    (r : Display_Ref_Full) (depth : Z) (written : list Report_Event) :
  ddc_report_display_by_dref c (Some r) depth = Returns written ->
  DDCA_OL_NORMAL c <= get_output_level c ->
  DDCA_OL_VERBOSE c <= get_output_level c ->
  flag_set (flags r) (DREF_DDC_COMMUNICATION_WORKING c) = false ->
  exists d1 before between text,
    written = before ++ Rpt d1 "DDC communication failed" :: between
                     ++ [Rpt d1 text]
    /\ (d1 = depth \/ d1 = depth + 1).
Proof.
  intros H Hnormal Hverbose Hworking.
  apply ddc_report_display_by_dref_inv in H
    as (named & d1 & active & rest & Hnamed & Hactive & Hrest & ->).
  destruct (Z.leb_spec (DDCA_OL_NORMAL c) (get_output_level c)); [|lia].
  rewrite Hworking in Hrest. simpl in Hrest.
  apply report_communication_failed_inv in Hrest
    as (between & msg & -> & _ & Hmsg).
  destruct (Hmsg Hverbose) as [text ->].
  exists d1, (named ++ active), between, text. split.
  - now rewrite <- app_assoc.
  - unfold report_dispno in Hnamed.
    repeat (destruct (_ =? _) in Hnamed; [injection Hnamed as _ <-; auto|]).
    injection Hnamed as _ <-; auto.
Qed.
End Ddcutil.

(** ** The theorems at sample inputs *)

(** The spec's scenario for C1: with deferred sleep enabled, a post-write
    sleep at clock 1000 with multiplier 1.0 sets the deadline 50 ms later;
    a second one at the same clock with multiplier 0.6 computes a deadline
    30 ms later and leaves the first in place. *)
Lemma next_i2c_io_after_raise_only_witness :
  exists w',
    exec_all 25 dsa_keep
      [ Call_tuned_sleep 1000 (Some sample_dh) SE_POST_WRITE 0;
        Set_thread_data (sample_tsd false double_0_6 1 double_1);
        Call_tuned_sleep 1000 (Some sample_dh) SE_POST_WRITE 0 ]
      (sample_world DDCA_IO_I2C true 0 (sample_tsd false double_1 1 double_1))
    = Returns w'
    /\ next_i2c_io_after <$> display_refs w' !! 7%nat = Some (1000 + 50 * 1000000)
    /\ refs_raised
         (display_refs
            (sample_world DDCA_IO_I2C true 0 (sample_tsd false double_1 1 double_1)))
         (display_refs w').
Proof.
  eexists. split; [vm_compute; reflexivity|].
  split; [vm_compute; reflexivity|].
  apply (proj2 (next_i2c_io_after_raise_only 25 dsa_keep)
           [ Call_tuned_sleep 1000 (Some sample_dh) SE_POST_WRITE 0;
             Set_thread_data (sample_tsd false double_0_6 1 double_1);
             Call_tuned_sleep 1000 (Some sample_dh) SE_POST_WRITE 0 ]).
  vm_compute; reflexivity.
Defined.







(** C8 at sample inputs: a USB display, with a valid and with an invalid
    combination of event type and special time. *)
Lemma tuned_sleep_usb_is_fatal_witness :
  tuned_sleep_with_trace 25 dsa_keep 0 (Some sample_dh) SE_POST_WRITE 0
    (sample_world DDCA_IO_USB true 0 (sample_tsd false double_1 1 double_1))
  = Aborts Program_Logic_Error
  /\ tuned_sleep_with_trace 25 dsa_keep 0 (Some sample_dh) SE_POST_WRITE 5
       (sample_world DDCA_IO_USB true 0 (sample_tsd false double_1 1 double_1))
     = Aborts (Assertion_Failed Assert_special_sleep_time).
Proof.
  split.
  - exact (proj1 (tuned_sleep_usb_is_fatal 25 dsa_keep 0 sample_dh SE_POST_WRITE 0
                    (sample_world DDCA_IO_USB true 0
                       (sample_tsd false double_1 1 double_1))
                    {| io_mode := DDCA_IO_USB; next_i2c_io_after := 0 |}
                    eq_refl) eq_refl).
  - exact (proj1 (tuned_sleep_usb_is_fatal 25 dsa_keep 0 sample_dh SE_POST_WRITE 5
                    (sample_world DDCA_IO_USB true 0
                       (sample_tsd false double_1 1 double_1))
                    {| io_mode := DDCA_IO_USB; next_i2c_io_after := 0 |}
                    eq_refl) eq_refl).
Defined.

(** C10 at a sample input: deferred sleep disabled, post save-settings. *)
Lemma tuned_sleep_defers_only_when_enabled_witness :
  exists w',
    tuned_sleep_with_trace 25 dsa_keep 1000 (Some sample_dh)
      SE_POST_SAVE_SETTINGS 0
      (sample_world DDCA_IO_I2C false 0 (sample_tsd false double_1 1 double_1))
    = Returns w'
    /\ display_refs w'
       = display_refs
           (sample_world DDCA_IO_I2C false 0 (sample_tsd false double_1 1 double_1))
    /\ slept_millis w' = [] ++ [200].
Proof.
  exact (proj2 (proj2 (tuned_sleep_defers_only_when_enabled 25 dsa_keep
                         1000 sample_dh SE_POST_SAVE_SETTINGS 0
                         (sample_world DDCA_IO_I2C false 0
                            (sample_tsd false double_1 1 double_1))))
           {| io_mode := DDCA_IO_I2C; next_i2c_io_after := 0 |} 200
           eq_refl eq_refl eq_refl eq_refl eq_refl).
Defined.

(** ** Two scenarios of the spec, run on the model *)

(** Post write with deferred sleep enabled, multiplier 1.0, dynamic sleep
    off, count 1: the deadline becomes the clock plus 50 ms, and
    [check_deferred_sleep] 10 ms later sleeps 40 ms. *)
Example post_write_then_check_deferred_sleep :
  exists w',
    exec_all 25 dsa_keep
      [ Call_tuned_sleep 7000000 (Some sample_dh) SE_POST_WRITE 0;
        Call_check_deferred_sleep 17000000 (Some sample_dh) ]
      (sample_world DDCA_IO_I2C true 0 (sample_tsd false double_1 1 double_1))
    = Returns w'
    /\ next_i2c_io_after <$> display_refs w' !! 7%nat = Some 57000000
    /\ slept_millis w' = [40].
Proof. eexists. repeat split; vm_compute; reflexivity. Qed.

(** A transport that reports the I/O error -5: the status comes back
    unchanged. *)
Example invoke_i2c_writer_io_error :
  invoke_i2c_writer unit
    {| strategy_id := I2C_IO_STRATEGY_IOCTL;
       i2c_writer := fun _ _ _ _ bus => (-5, bus);
       i2c_reader := fun _ _ _ _ buf bus => (0, buf, bus);
       i2c_writer_name := "failing_writer";
       i2c_reader_name := "reader" |}
    3 Byte.x37 2 [Byte.x51; Byte.x82] tt
  = Returns (-5, tt).
Proof. reflexivity. Qed.

(** ** The further properties at sample inputs *)

(** X3 at a sample input: an immediate write-to-read sleep is recorded. *)
Lemma tuned_sleep_records_event_witness :
  exists w',
    tuned_sleep_with_trace 25 dsa_keep 0 (Some sample_dh) SE_WRITE_TO_READ 0
      (sample_world DDCA_IO_I2C false 0 (sample_tsd false double_1 1 double_1))
    = Returns w'
    /\ sleep_events w' = [] ++ [SE_WRITE_TO_READ].
Proof.
  eexists. split; [vm_compute; reflexivity|].
  match goal with
  | |- sleep_events ?w' = _ =>
      exact (proj1 (tuned_sleep_records_event 25 dsa_keep 0 sample_dh
                      SE_WRITE_TO_READ 0
                      (sample_world DDCA_IO_I2C false 0
                         (sample_tsd false double_1 1 double_1))
                      w' eq_refl))
  end.
Defined.

(** X4 at a sample input: a deadline 2.5 ms ahead stays in place. *)
Lemma check_deferred_sleep_only_sleeps_witness :
  display_refs
    (sleep_millis_with_trace 2
       (sample_world DDCA_IO_I2C true 2501000
          (sample_tsd false double_1 1 double_1)))
  = display_refs
      (sample_world DDCA_IO_I2C true 2501000 (sample_tsd false double_1 1 double_1)).
Proof.
  exact (proj1 (check_deferred_sleep_only_sleeps 1000 (Some sample_dh)
                  (sample_world DDCA_IO_I2C true 2501000
                     (sample_tsd false double_1 1 double_1))
                  (sleep_millis_with_trace 2
                     (sample_world DDCA_IO_I2C true 2501000
                        (sample_tsd false double_1 1 double_1)))
                  eq_refl)).
Defined.

(** X5 at a sample input: post write at clock 7 ms, paid at clock 17 ms:
    40 of the 50 ms remain. *)
Lemma deferred_sleep_subtracts_elapsed_witness :
  exists w',
    exec_all 25 dsa_keep
      [ Call_tuned_sleep 7000000 (Some sample_dh) SE_POST_WRITE 0;
        Call_check_deferred_sleep 17000000 (Some sample_dh) ]
      (sample_world DDCA_IO_I2C true 0 (sample_tsd false double_1 1 double_1))
    = Returns w'
    /\ slept_millis w' =
       [] ++ (if 17000000 - 7000000 <? 1000 * 1000 * 50
              then [(1000 * 1000 * 50 - (17000000 - 7000000)) / (1000 * 1000)]
              else []).
Proof.
  refine (deferred_sleep_subtracts_elapsed 25 dsa_keep
            7000000 17000000 sample_dh SE_POST_WRITE 0
            (sample_world DDCA_IO_I2C true 0 (sample_tsd false double_1 1 double_1))
            {| io_mode := DDCA_IO_I2C; next_i2c_io_after := 0 |} 50
            eq_refl eq_refl eq_refl eq_refl eq_refl eq_refl _ _ _ _);
    simpl; lia.
Defined.

(** X6 at a sample input: post save-settings with multiplier count 11
    gives 2200 ms, beyond what the deferred path can hold. *)
Lemma tuned_sleep_deferred_delay_limit_witness :
  tuned_sleep_with_trace 25 dsa_keep 0 (Some sample_dh) SE_POST_SAVE_SETTINGS 0
    (sample_world DDCA_IO_I2C true 0 (sample_tsd false double_1 11 double_1))
  = Aborts Undefined_Behavior.
Proof.
  refine (tuned_sleep_deferred_delay_limit 25 dsa_keep
            0 sample_dh SE_POST_SAVE_SETTINGS 0
            (sample_world DDCA_IO_I2C true 0 (sample_tsd false double_1 11 double_1))
            {| io_mode := DDCA_IO_I2C; next_i2c_io_after := 0 |} 2200
            eq_refl eq_refl eq_refl eq_refl eq_refl _).
  right. lia.
Defined.



(** ** The report functions at sample inputs *)

(** X10 at a sample input: [sh] 1 and [sl] 31 give "1.31". *)
Lemma firmware_version_string_in_full_witness :
  get_firmware_version_string_t
    (sample_collaborators 8 sample_vcp_value (0, Some sample_dh)) (Some sample_dh)
  = Returns ("1.31"%string, []).
Proof.
  exact (proj1 (firmware_version_string_in_full
                  (sample_collaborators 8 sample_vcp_value (0, Some sample_dh))
                  (Some sample_dh) {| sh := Byte.x01; sl := Byte.x1f |}
                  eq_refl eq_refl)).
Defined.

(** X11 at a sample input: the same text from two settings. *)
Lemma firmware_version_string_unambiguous_witness :
  valrec (ddc_get_vcp_value
            (sample_collaborators 16 sample_vcp_value (0, None)) None Byte.xc9)
  = Some {| sh := Byte.x01; sl := Byte.x1f |}.
Proof.
  exact (proj2 (firmware_version_string_unambiguous
                  (sample_collaborators 8 sample_vcp_value (0, Some sample_dh))
                  (sample_collaborators 16 sample_vcp_value (0, None))
                  (Some sample_dh) None {| sh := Byte.x01; sl := Byte.x1f |}
                  "1.31" [] [] eq_refl eq_refl eq_refl eq_refl)).
Defined.

(** X12 at a sample input: code 0x1f is not in the table. *)
Lemma controller_mfg_string_in_full_witness :
  exists text,
    get_controller_mfg_string_t
      (sample_collaborators 8 sample_vcp_value (0, Some sample_dh)) (Some sample_dh)
    = Returns (text, [])
    /\ text = "Unrecognized manufacturer code 0x1f"%string.
Proof.
  destruct (controller_mfg_string_in_full
              (sample_collaborators 8 sample_vcp_value (0, Some sample_dh))
              (Some sample_dh) {| sh := Byte.x01; sl := Byte.x1f |}
              eq_refl eq_refl)
    as (text & Hrun & _ & Hnone).
  exists text. split; [exact Hrun|]. exact (proj1 (Hnone eq_refl)).
Defined.

(** X13 at a sample input: status -3005, with error reporting on. *)
Lemma vcp_failure_texts_agree_witness :
  exists text written written',
    get_firmware_version_string_t
      (sample_collaborators 8 sample_vcp_unsupported (0, None)) (Some sample_dh)
    = Returns (text, written)
    /\ get_controller_mfg_string_t
         (sample_collaborators 8 sample_vcp_unsupported (0, None)) None
       = Returns (text, written')
    /\ text = "Unspecified"%string /\ written = [] /\ written' = [].
Proof.
  exact (vcp_failure_texts_agree
           (sample_collaborators 8 sample_vcp_unsupported (0, None))
           (Some sample_dh) None {| status_code := -3005 |}
           eq_refl eq_refl ltac:(discriminate)).
Defined.


(** X15 at a sample input: the only display is invalid and invalid
    displays are left out, at output level normal. *)
Lemma ddc_report_displays_none_found_witness :
  match ddc_report_displays
          (sample_collaborators 8 sample_vcp_value (0, Some sample_dh))
          [Some (sample_dref (-1) 1)] false 0 with
  | Returns (display_ct, written) =>
      display_ct = 0
      /\ written =
         [Rpt 0 "No active displays found.";
          Rpt 0 "Is DDC/CI enabled in the monitor's on screen display?";
          Rpt 0 ("Run " +:+ String (Ascii.ascii_of_nat 34) "ddcutil environment"
                 +:+ String (Ascii.ascii_of_nat 34)
                       " to check for system configuration problems.")]
  | Aborts _ => False
  end.
Proof.
  destruct (ddc_report_displays
              (sample_collaborators 8 sample_vcp_value (0, Some sample_dh))
              [Some (sample_dref (-1) 1)] false 0)
    as [[display_ct written]|f] eqn:Hrun.
  - pose proof (ddc_report_displays_none_found _ _ _ _ _ _ Hrun) as Hfound.
    assert (Hct : display_ct = 0)
      by (vm_compute in Hrun; now injection Hrun as <- _).
    subst display_ct. split; [reflexivity | exact Hfound].
  - vm_compute in Hrun. discriminate Hrun.
Defined.

(** X16 at a sample input: a working display at output level verbose is
    opened and closed. *)
Lemma ddc_report_display_by_dref_closes_what_it_opens_witness :
  match ddc_report_display_by_dref
          (sample_collaborators 16 sample_vcp_value (0, Some sample_dh))
          (Some (sample_dref 1 3)) 0 with
  | Returns written =>
      List.filter is_open_or_close written
      = [Open_display 0 (Some sample_dh); Close_display (Some sample_dh)]
  | Aborts _ => False
  end.
Proof.
  destruct (ddc_report_display_by_dref
              (sample_collaborators 16 sample_vcp_value (0, Some sample_dh))
              (Some (sample_dref 1 3)) 0) as [written|f] eqn:Hrun.
  - destruct (proj1 (ddc_report_display_by_dref_closes_what_it_opens _ _ _ _ Hrun))
      as [Hnone|Hsome].
    + vm_compute in Hrun. injection Hrun as <-. vm_compute in Hnone.
      discriminate Hnone.
    + exact Hsome.
  - vm_compute in Hrun. discriminate Hrun.
Defined.

(** X17 at a sample input: an external display without DDC communication,
    at output level verbose. *)
Lemma communication_failure_explained_at_verbose_witness :
  match ddc_report_display_by_dref
          (sample_collaborators 16 sample_vcp_value (0, Some sample_dh))
          (Some (sample_dref 1 1)) 0 with
  | Returns written =>
      exists d1 before between text,
        written = before ++ Rpt d1 "DDC communication failed" :: between
                         ++ [Rpt d1 text]
        /\ (d1 = 0 \/ d1 = 0 + 1)
  | Aborts _ => False
  end.
Proof.
  destruct (ddc_report_display_by_dref
              (sample_collaborators 16 sample_vcp_value (0, Some sample_dh))
              (Some (sample_dref 1 1)) 0) as [written|f] eqn:Hrun.
  - refine (communication_failure_explained_at_verbose _ _ _ _ Hrun _ _ eq_refl);
      simpl; lia.
  - vm_compute in Hrun. discriminate Hrun.
Defined.

(** The report of the sample display of X17, line by line. *)
Example report_of_a_failing_display :
  ddc_report_display_by_dref
    (sample_collaborators 16 sample_vcp_value (0, Some sample_dh))
    (Some (sample_dref 1 1)) 0
  = Returns
      [Rpt 0 "Display 1";
       Rpt 1 "I2C bus:  /dev/i2c-4";
       Rpt 1 "DDC communication failed";
       Rpt 1 "Is DDC/CI enabled in the monitor's on-screen display?"].
Proof. vm_compute. reflexivity. Qed.
